(** * Zero-Based Inbox Processor: the orchestrator of [minimalist_agent.py]

    A shallow embedding of [process_input_with_orchestrator] and of the two
    local tool functions, followed by the properties of the run that the
    design document states about it.

    The client library and the generative model are external.  They are
    represented by how their calls end: a [Client] says, for the
    configuration constructor and for each method of the model object,
    whether the call returns, raises an exception derived from
    [Exception], or raises one that is not.  Everything between these
    calls and what the caller gets is translated statement by statement.

    A [GenerativeModel] is a model object that is well behaved: its two
    answering methods return or raise exceptions derived from [Exception],
    and configurations and chats are always created.  Theorems stated for
    a [model : GenerativeModel] are about the runs with such a model;
    theorems stated for a [client : Client] cover every behaviour. *)

From Stdlib Require Import String List Arith Lia.
From stdpp Require Import gmap strings list fin_maps.
Import ListNotations.
Local Open Scope string_scope.

(** ** Python values, exceptions and outcomes *)

(** The values a function call's argument mapping may hold for the fields
    the two schemas declare: [None], a [str], or a list. *)
#[warnings="-register-all"]
Inductive value : Type :=
| VNone
| VStr (s : string)
| VList (items : list value).

(** Python truth value: [None], the empty string and the empty list are
    false; everything else is true. *)
Definition truthy (v : value) : bool :=
  match v with
  | VNone => false
  | VStr s => negb (String.eqb s "")
  | VList items => match items with [] => false | _ :: _ => true end
  end.

Definition is_none (v : value) : bool :=
  match v with VNone => true | _ => false end.

(** A stand-in for the rendering of objects, for sample runs in which only
    strings are rendered. *)
Definition placeholder_rendering : value -> string := fun _ => "<object>".

(** Keyword arguments / a [dict] with string keys. *)
Abbreviation kwargs := (gmap string value).

(** The exceptions of the run, all subclasses of [Exception]: the client
    library's [APIError], the [KeyError] of a failed subscript, and any
    other. *)
Inductive exn : Type :=
| APIError (msg : string)
| KeyError (key : string)
| OtherException (msg : string).

Inductive outcome (A : Type) : Type :=
| Returned (a : A)
| Raised (e : exn).
Arguments Returned {A} a.
Arguments Raised {A} e.

(** The exceptions that derive from [BaseException] but not from
    [Exception]: an [except Exception] clause does not catch them. *)
Inductive base_exception : Type :=
| KeyboardInterrupt
| SystemExit
| GeneratorExit.

(** How a statement ends in general: with an [outcome] (a value, or an
    exception derived from [Exception]), or with an exception that no
    [except Exception] clause stops. *)
Inductive completion (A : Type) : Type :=
| Completes (o : outcome A)
| Escapes (b : base_exception).
Arguments Completes {A} o.
Arguments Escapes {A} b.

(** An outcome is read as a completion wherever one is expected, so
    [Returned x] and [Raised e] also stand for [Completes (Returned x)] and
    [Completes (Raised e)]. *)
Coercion Completes : outcome >-> completion.

(** ** Section 1 of the source: the tool schemas *)

Inductive Schema : Type :=
| TaskCategorizerSchema
| NoteSynthesizerSchema.

(** [Schema.__name__] *)
Definition schema_name (s : Schema) : string :=
  match s with
  | TaskCategorizerSchema => "TaskCategorizerSchema"
  | NoteSynthesizerSchema => "NoteSynthesizerSchema"
  end.

(** One declared [Field]: its name, whether it has no default (so that the
    schema requires it), and the set of literals its description says it
    must be one of, when it gives one. *)
Record FieldSpec : Type := {
  field_name : string;
  field_required : bool;
  field_one_of : option (list string)
}.

Definition schema_fields (s : Schema) : list FieldSpec :=
  match s with
  | TaskCategorizerSchema =>
      [ {| field_name := "raw_task_text"; field_required := true;
           field_one_of := None |};
        {| field_name := "action"; field_required := true;
           field_one_of := Some ["do"; "delegate"; "defer"; "delete"] |};
        {| field_name := "priority"; field_required := true;
           field_one_of := Some ["high"; "medium"; "low"] |};
        {| field_name := "context_tag"; field_required := true;
           field_one_of :=
             Some ["#Work"; "#Personal"; "#Learning"; "#Finance"] |};
        {| field_name := "due_date"; field_required := false;
           field_one_of := None |} ]
  | NoteSynthesizerSchema =>
      [ {| field_name := "original_source"; field_required := true;
           field_one_of := None |};
        {| field_name := "summary_bullets"; field_required := true;
           field_one_of := None |};
        {| field_name := "conceptual_tags"; field_required := true;
           field_one_of := None |};
        {| field_name := "embedded_task"; field_required := false;
           field_one_of := None |} ]
  end.

(** What a validation against the schema would reject: a required field
    that is absent, or a field limited to a set of literals that holds
    anything else.  The source never runs such a check; these predicates
    only describe the candidates. *)
Definition missing_required (s : Schema) (kw : kwargs) : list string :=
  map field_name
    (List.filter (fun f => field_required f && bool_decide (kw !! field_name f = None))
       (schema_fields s)).

Definition in_declared_set (allowed : list string) (v : value) : bool :=
  match v with
  | VStr x => existsb (String.eqb x) allowed
  | _ => false
  end.

Definition outside_declared_set (s : Schema) (kw : kwargs) : list string :=
  map field_name
    (List.filter (fun f =>
               match field_one_of f, kw !! field_name f with
               | Some allowed, Some v => negb (in_declared_set allowed v)
               | _, _ => false
               end)
       (schema_fields s)).

(** ** Section 2 of the source: the instruction text *)

Definition SYSTEM_INSTRUCTIONS : string :=
"
You are the Zero-Based Inbox Processor, a highly specialized Concierge Agent.
Your sole purpose is to transform unstructured digital input into highly structured, actionable JSON outputs by strictly adhering to the user's Minimalist Rules.

### YOUR MINIMALIST RULES (Non-Negotiable Constraints):
1. MAX PRIORITY LIMIT: You must categorize a maximum of 3 tasks as 'high' priority per session. If the input implies more than three, you must intelligently downgrade the less urgent ones to 'medium' or 'low'.
2. MANDATORY TAGGING: Every output (task or note) must be assigned exactly ONE context_tag from the following list: '#Work', '#Personal', '#Learning', or '#Finance'.
3. NOTE SYNTHESIS LIMIT: Summary bullet points must not exceed 5 items. Be ruthless in your conciseness.

### INSTRUCTION FLOW:
1. Analyze the input to determine if it is an action (task) or long-form information (note).
2. Call the appropriate tool (TaskCategorizerSchema or NoteSynthesizerSchema).
3. CRITICAL A2A HAND-OFF: If the NoteSynthesizerSchema returns an 'embedded_task', you MUST process this task separately by calling the TaskCategorizerSchema immediately afterward.
4. ONLY output the results from the tool calls. Do not include any conversational filler.
".

(** ** Section 3 of the source: the tool functions *)

(** The [dict] a tool function returns has two entries: ["tool_used"] and
    one output entry, stored under [output_key]. *)
Record ToolResult : Type := {
  tool_used : string;
  output_key : string;
  output : kwargs
}.

Definition categorize_task (kw : kwargs) : ToolResult :=
  {| tool_used := "TaskCategorizer"; output_key := "task_output"; output := kw |}.

Definition synthesize_note (kw : kwargs) : ToolResult :=
  {| tool_used := "NoteSynthesizer"; output_key := "note_output"; output := kw |}.

Definition TOOL_FUNCTIONS : gmap string (kwargs -> ToolResult) :=
  {[ schema_name TaskCategorizerSchema := categorize_task;
     schema_name NoteSynthesizerSchema := synthesize_note ]}.

(** ** The client library, as the orchestrator uses it *)

(** One turn of chat history: [{"role": ..., "parts": [{"text": ...}]}]. *)
Record Turn : Type := {
  role : string;
  turn_text : string
}.

(** [GenerateContentConfig(tools=[...])] *)
Record GenerateContentConfig : Type := {
  tools : list Schema
}.

Record FunctionCall : Type := {
  name : string;
  args : kwargs
}.

(** A response, by the two attributes the orchestrator reads.  An absent
    [function_calls] is the empty list; an absent [text] is [None]. *)
Record Response : Type := {
  function_calls : list FunctionCall;
  text : option string
}.

(** What the function calls outside itself, by how each call ends: the
    library's [GenerateContentConfig(tools=...)] constructor, and the three
    methods of the model object it is given.  Each may return, raise an
    exception derived from [Exception], or raise one that is not. *)
Record Client : Type := {
  client_construct_config : list Schema -> completion unit;
  client_start_chat : list Turn -> completion unit;
  client_chat_send_message :
    list Turn -> string -> GenerateContentConfig -> completion Response;
  client_generate_content :
    string -> GenerateContentConfig -> completion Response
}.

(** A well-behaved model object, by its answers: to a stateless
    [generate_content] call, and to [send_message] on a chat started from
    it with a given history.  Either may raise, but only exceptions derived
    from [Exception]; creating a configuration or a chat always succeeds. *)
Record GenerativeModel : Type := {
  model_generate_content :
    string -> GenerateContentConfig -> outcome Response;
  model_chat_send_message :
    list Turn -> string -> GenerateContentConfig -> outcome Response
}.

(** The client of a well-behaved model.  It is a coercion: wherever a
    function of a [Client] is applied to a [model : GenerativeModel], the
    run is the one with this client, that is, a run in which lines 139-147
    of the source complete and every exception of a call derives from
    [Exception]. *)
Definition well_behaved (model : GenerativeModel) : Client :=
  {| client_construct_config := fun _ => Completes (Returned tt);
     client_start_chat := fun _ => Completes (Returned tt);
     client_chat_send_message := fun history msg config =>
       Completes (model_chat_send_message model history msg config);
     client_generate_content := fun prompt config =>
       Completes (model_generate_content model prompt config) |}.

Coercion well_behaved : GenerativeModel >-> Client.

(** The chat object that [model.start_chat(history=...)] returns. *)
Record ChatSession : Type := {
  chat_client : Client;
  chat_history : list Turn
}.

(** The two ways the orchestrator reaches the model. *)
Inductive Endpoint : Type :=
| ChatSendMessage
| GenerateContent.

(** What reaches the model in one call: the turns that precede the
    message, the message, and the tool configuration. *)
Record Request : Type := {
  endpoint : Endpoint;
  prior_turns : list Turn;
  message : string;
  request_config : GenerateContentConfig
}.

(** ** The run: mutable state and exceptions *)

(** The lines the function prints, by what they report. *)
Inductive ConsoleLine : Type :=
| ProcessingInput (raw_input : string)
| ToolCalled (tool_name : string)
| HandoffFound
| HandoffSuccess
| HandoffFailure
| UnknownTool (tool_name : string)
| ModelOutput (response_text : string)
| ApiErrorOccurred (e : exn)
| UnexpectedErrorOccurred (e : exn).

(** The state a run mutates: the [final_results] list, the console, and
    (as a record of the run, not a variable of the source) the requests
    sent to the model so far. *)
Record RunState : Type := {
  final_results : list ToolResult;
  console : list ConsoleLine;
  sent : list Request
}.

(** A statement completes with a value or raises; in every case the state
    reached so far is kept, as Python keeps the mutated list when an
    exception unwinds. *)
Definition M (A : Type) : Type := RunState -> completion A * RunState.

#[global] Instance M_ret : MRet M := fun A a st => (Completes (Returned a), st).

#[global] Instance M_bind : MBind M := fun A B f m st =>
  match m st with
  | (Completes (Returned a), st') => f a st'
  | (Completes (Raised e), st') => (Completes (Raised e), st')
  | (Escapes b, st') => (Escapes b, st')
  end.

Definition raise {A : Type} (e : exn) : M A := fun st =>
  (Completes (Raised e), st).

(** [try: body except APIError/Exception as e: handler e].  The clauses
    catch the exceptions derived from [Exception]; any other passes
    through. *)
Definition try_except (body : M unit) (handler : exn -> M unit) : M unit :=
  fun st =>
    match body st with
    | (Completes (Returned u), st') => (Completes (Returned u), st')
    | (Completes (Raised e), st') => handler e st'
    | (Escapes b, st') => (Escapes b, st')
    end.

Definition print (line : ConsoleLine) : M unit := fun st =>
  (Completes (Returned tt),
   {| final_results := final_results st;
      console := console st ++ [line];
      sent := sent st |}).

(** [final_results.append(r)] *)
Definition append_result (r : ToolResult) : M unit := fun st =>
  (Completes (Returned tt),
   {| final_results := final_results st ++ [r];
      console := console st;
      sent := sent st |}).

Definition read_final_results : M (list ToolResult) := fun st =>
  (Completes (Returned (final_results st)), st).

Definition record_request (rq : Request) : M unit := fun st =>
  (Completes (Returned tt),
   {| final_results := final_results st;
      console := console st;
      sent := sent st ++ [rq] |}).

(** A call outside the function, by how it ends. *)
Definition external_call {A : Type} (c : completion A) : M A :=
  fun st => (c, st).

(** [genai.types.GenerateContentConfig(tools=...)] *)
Definition construct_config (client : Client) (offered : list Schema)
  : M GenerateContentConfig :=
  external_call (client_construct_config client offered);;
  mret {| tools := offered |}.

(** [model.start_chat(history=...)] *)
Definition start_chat (client : Client) (history : list Turn)
  : M ChatSession :=
  external_call (client_start_chat client history);;
  mret {| chat_client := client; chat_history := history |}.

(** [chat.send_message(msg, config=config)] *)
Definition send_message (chat : ChatSession) (msg : string)
    (config : GenerateContentConfig) : M Response :=
  record_request {| endpoint := ChatSendMessage;
                    prior_turns := chat_history chat; message := msg;
                    request_config := config |};;
  external_call
    (client_chat_send_message (chat_client chat) (chat_history chat) msg config).

(** [model.generate_content(prompt, config=config)] *)
Definition generate_content (client : Client) (prompt : string)
    (config : GenerateContentConfig) : M Response :=
  record_request {| endpoint := GenerateContent;
                    prior_turns := []; message := prompt;
                    request_config := config |};;
  external_call (client_generate_content client prompt config).

(** [d[key]] on an argument mapping *)
Definition subscript (d : kwargs) (key : string) : M value :=
  match d !! key with
  | Some v => mret v
  | None => raise (KeyError key)
  end.

(** [tool_result[key]] for an output entry of a tool result *)
Definition result_subscript (r : ToolResult) (key : string) : M kwargs :=
  if String.eqb key (output_key r) then mret (output r)
  else raise (KeyError key).

(** ** Section 4 of the source: the orchestrator *)

Section Orchestrator.

(** Python's built-in rendering of an object that is not a [str] inside an
    f-string.  It belongs to the interpreter and the client library, so it
    is a parameter here; a [str] is rendered as itself. *)
Variable render_object : value -> string.

Definition format_value (v : value) : string :=
  match v with
  | VStr s => s
  | _ => render_object v
  end.

(** The history every chat starts from. *)
Definition preamble : list Turn :=
  [ {| role := "user"; turn_text := SYSTEM_INSTRUCTIONS |};
    {| role := "model"; turn_text := "Minimalist rules loaded. Awaiting input." |} ].

(** The configurations that lines 139-141 and line 173 build, when the
    constructor returns. *)
Definition primary_config : GenerateContentConfig :=
  {| tools := [TaskCategorizerSchema; NoteSynthesizerSchema] |}.

Definition a2a_config : GenerateContentConfig :=
  {| tools := [TaskCategorizerSchema] |}.

Definition a2a_prompt (embedded_task : value) : string :=
  "Process this embedded task using the TaskCategorizer: "
    +:+ format_value embedded_task
    +:+ ". Remember the minimalist rules.".

(** [tool_name == NoteSynthesizerSchema.__name__ and
     tool_result['note_output']['embedded_task']], as the [if] reads it. *)
Definition handoff_condition (tool_name : string) (tool_result : ToolResult)
  : M bool :=
  if String.eqb tool_name (schema_name NoteSynthesizerSchema) then
    note_output ← result_subscript tool_result "note_output";
    embedded_task ← subscript note_output "embedded_task";
    mret (truthy embedded_task)
  else mret false.

(** The hand-off block (the body of the [if] above). *)
Definition a2a_handoff (client : Client) (tool_result : ToolResult)
  : M unit :=
  note_output ← result_subscript tool_result "note_output";
  embedded_task ← subscript note_output "embedded_task";
  print HandoffFound;;
  handoff_config ← construct_config client [TaskCategorizerSchema];
  a2a_response ←
    generate_content client (a2a_prompt embedded_task) handoff_config;
  match function_calls a2a_response with
  | a2a_call :: _ =>
      let a2a_args := args a2a_call in
      let a2a_result := categorize_task a2a_args in
      append_result a2a_result;;
      print HandoffSuccess
  | [] => print HandoffFailure
  end.

(** The [while response.function_calls:] loop.  Both branches of its body
    end in [break], so the body runs at most once: for the first function
    call of the response, if there is one. *)
Definition tool_call_loop (client : Client) (response : Response)
  : M unit :=
  match function_calls response with
  | function_call :: _ =>
      let tool_name := name function_call in
      match TOOL_FUNCTIONS !! tool_name with
      | Some tool_function =>
          let tool_args := args function_call in
          let tool_result := tool_function tool_args in
          append_result tool_result;;
          print (ToolCalled tool_name);;
          handoff ← handoff_condition tool_name tool_result;
          if (handoff : bool) then a2a_handoff client tool_result else mret tt
      | None => print (UnknownTool tool_name)
      end
  | [] => mret tt
  end.

Definition text_truthy (t : option string) : bool :=
  match t with
  | Some s => negb (String.eqb s "")
  | None => false
  end.

(** The body of the [try]. *)
Definition try_block (raw_input : string) (client : Client)
    (chat : ChatSession) (config : GenerateContentConfig) : M unit :=
  response ← send_message chat raw_input config;
  tool_call_loop client response;;
  results ← read_final_results;
  if match results with [] => true | _ :: _ => false end
     && text_truthy (text response)
  then print (ModelOutput (default "" (text response)))
  else mret tt.

(** The two [except] clauses: both report and fall through to the
    [return]. *)
Definition except_clauses (e : exn) : M unit :=
  match e with
  | APIError _ => print (ApiErrorOccurred e)
  | _ => print (UnexpectedErrorOccurred e)
  end.

(** The function body.  The banner, the configuration and the chat come
    before the [try]: what they raise reaches the caller. *)
Definition orchestrator_body (raw_input : string) (client : Client)
  : M (list ToolResult) :=
  print (ProcessingInput raw_input);;
  config ←
    construct_config client [TaskCategorizerSchema; NoteSynthesizerSchema];
  chat ← start_chat client preamble;
  try_except (try_block raw_input client chat config) except_clauses;;
  read_final_results.

Definition initial_state : RunState :=
  {| final_results := []; console := []; sent := [] |}.

(** A call of the function: what it gives back to its caller, and the
    state the run ended in. *)
Definition process_input_run (raw_input : string) (client : Client)
  : completion (list ToolResult) * RunState :=
  orchestrator_body raw_input client initial_state.

Definition process_input_with_orchestrator (raw_input : string)
    (client : Client) : completion (list ToolResult) :=
  fst (process_input_run raw_input client).

(** The requests the run sent to the model, in order. *)
Definition requests_sent (raw_input : string) (client : Client)
  : list Request :=
  sent (snd (process_input_run raw_input client)).

(** The list the run has accumulated when it ends. *)
Definition recorded_results (raw_input : string) (client : Client)
  : list ToolResult :=
  final_results (snd (process_input_run raw_input client)).

(** ** Vocabulary of the design document, read off the run *)

(** The request of the primary extraction and of a hand-off for an
    embedded task [v], as the source builds them. *)
Definition primary_request (raw_input : string) : Request :=
  {| endpoint := ChatSendMessage; prior_turns := preamble;
     message := raw_input; request_config := primary_config |}.

Definition handoff_request (v : value) : Request :=
  {| endpoint := GenerateContent; prior_turns := [];
     message := a2a_prompt v; request_config := a2a_config |}.

Definition is_handoff (rq : Request) : bool :=
  match endpoint rq with
  | GenerateContent => true
  | ChatSendMessage => false
  end.

(** The hand-off extractions a run attempted. *)
Definition handoffs_attempted (raw_input : string) (client : Client)
  : list Request :=
  List.filter is_handoff (requests_sent raw_input client).

Definition is_note (r : ToolResult) : bool :=
  String.eqb (tool_used r) "NoteSynthesizer".

Definition is_task (r : ToolResult) : bool :=
  String.eqb (tool_used r) "TaskCategorizer".

(** The primary result: the first recorded entry, if any. *)
Definition primary_result (raw_input : string) (client : Client)
  : option ToolResult :=
  head (recorded_results raw_input client).

(** The embedded task of a recorded note ([None] when the entry is not a
    note or its mapping has no such key). *)
Definition embedded_task_of (r : ToolResult) : option value :=
  if is_note r then output r !! "embedded_task" else None.

(** The model's answer to the primary extraction, and the first function
    call in it. *)
Definition primary_answer (raw_input : string) (model : GenerativeModel)
  : outcome Response :=
  model_chat_send_message model preamble raw_input primary_config.

Definition first_call (o : outcome Response) : option FunctionCall :=
  match o with
  | Returned r => head (function_calls r)
  | Raised _ => None
  end.

(** The model's answer to the hand-off extraction for embedded task [v]. *)
Definition handoff_answer (model : GenerativeModel) (v : value)
  : outcome Response :=
  model_generate_content model (a2a_prompt v) a2a_config.

(** Recorded tasks whose priority is ['high']. *)
Definition is_high_priority_task (r : ToolResult) : bool :=
  is_task r &&
  match output r !! "priority" with
  | Some (VStr p) => String.eqb p "high"
  | _ => false
  end.

Definition high_priority_count (rs : list ToolResult) : nat :=
  length (List.filter is_high_priority_task rs).

(** The paths through the function: which results are recorded and which
    requests are sent, by what the model answers. *)
Inductive run_path (raw_input : string) (model : GenerativeModel)
  : list ToolResult -> list Request -> Prop :=
| path_primary_raises e :
    primary_answer raw_input model = Raised e ->
    run_path raw_input model [] [primary_request raw_input]
| path_no_function_call resp :
    primary_answer raw_input model = Returned resp ->
    function_calls resp = [] ->
    run_path raw_input model [] [primary_request raw_input]
| path_unknown_tool resp fc rest :
    primary_answer raw_input model = Returned resp ->
    function_calls resp = fc :: rest ->
    TOOL_FUNCTIONS !! name fc = None ->
    run_path raw_input model [] [primary_request raw_input]
| path_task resp fc rest :
    primary_answer raw_input model = Returned resp ->
    function_calls resp = fc :: rest ->
    name fc = schema_name TaskCategorizerSchema ->
    run_path raw_input model
      [categorize_task (args fc)] [primary_request raw_input]
| path_note_without_key resp fc rest :
    primary_answer raw_input model = Returned resp ->
    function_calls resp = fc :: rest ->
    name fc = schema_name NoteSynthesizerSchema ->
    args fc !! "embedded_task" = None ->
    run_path raw_input model
      [synthesize_note (args fc)] [primary_request raw_input]
| path_note_without_task resp fc rest v :
    primary_answer raw_input model = Returned resp ->
    function_calls resp = fc :: rest ->
    name fc = schema_name NoteSynthesizerSchema ->
    args fc !! "embedded_task" = Some v ->
    truthy v = false ->
    run_path raw_input model
      [synthesize_note (args fc)] [primary_request raw_input]
| path_handoff_raises resp fc rest v e :
    primary_answer raw_input model = Returned resp ->
    function_calls resp = fc :: rest ->
    name fc = schema_name NoteSynthesizerSchema ->
    args fc !! "embedded_task" = Some v ->
    truthy v = true ->
    handoff_answer model v = Raised e ->
    run_path raw_input model
      [synthesize_note (args fc)]
      [primary_request raw_input; handoff_request v]
| path_handoff_no_function_call resp fc rest v resp2 :
    primary_answer raw_input model = Returned resp ->
    function_calls resp = fc :: rest ->
    name fc = schema_name NoteSynthesizerSchema ->
    args fc !! "embedded_task" = Some v ->
    truthy v = true ->
    handoff_answer model v = Returned resp2 ->
    function_calls resp2 = [] ->
    run_path raw_input model
      [synthesize_note (args fc)]
      [primary_request raw_input; handoff_request v]
| path_handoff_recorded resp fc rest v resp2 fc2 rest2 :
    primary_answer raw_input model = Returned resp ->
    function_calls resp = fc :: rest ->
    name fc = schema_name NoteSynthesizerSchema ->
    args fc !! "embedded_task" = Some v ->
    truthy v = true ->
    handoff_answer model v = Returned resp2 ->
    function_calls resp2 = fc2 :: rest2 ->
    run_path raw_input model
      [synthesize_note (args fc); categorize_task (args fc2)]
      [primary_request raw_input; handoff_request v].

(** The entry the primary extraction contributes: the known tool named by
    the first function call of the primary answer, applied to its
    arguments. *)
Definition primary_entry (raw_input : string) (model : GenerativeModel)
  : list ToolResult :=
  match first_call (primary_answer raw_input model) with
  | Some fc =>
      match TOOL_FUNCTIONS !! name fc with
      | Some tool_function => [tool_function (args fc)]
      | None => []
      end
  | None => []
  end.

(** The entry the hand-off contributes: the task categorizer applied to the
    first function call of the model's answer to the hand-off request that
    was sent, if one was sent. *)
Definition handoff_entry (raw_input : string) (model : GenerativeModel)
  : list ToolResult :=
  match handoffs_attempted raw_input model with
  | rq :: _ =>
      match first_call
              (model_generate_content model (message rq) (request_config rq))
      with
      | Some fc => [categorize_task (args fc)]
      | None => []
      end
  | [] => []
  end.

(** A session of several runs, one after the other, and what they record
    in total. *)
Definition session_results (runs : list (string * GenerativeModel))
  : list ToolResult :=
  flat_map
    (fun run : string * GenerativeModel =>
       recorded_results (fst run) (snd run))
    runs.

(** A model that answers as [model] does, with every function call after
    the first removed from each response. *)
Definition keep_first_call (o : outcome Response) : outcome Response :=
  match o with
  | Returned r =>
      Returned {| function_calls := take 1 (function_calls r);
                  text := text r |}
  | Raised e => Raised e
  end.

Definition first_calls_only (model : GenerativeModel) : GenerativeModel :=
  {| model_generate_content := fun prompt config =>
       keep_first_call (model_generate_content model prompt config);
     model_chat_send_message := fun history msg config =>
       keep_first_call (model_chat_send_message model history msg config) |}.

(** The state in which the [try] block starts: the banner is printed and
    [final_results] is the empty list. *)
Definition state_before_try (raw_input : string) : RunState :=
  {| final_results := [];
     console := [ProcessingInput raw_input];
     sent := [] |}.

(** ** Sample models and inputs *)

(** A response that selects one tool. *)
Definition calling (tool_name : string) (a : kwargs) : Response :=
  {| function_calls := [ {| name := tool_name; args := a |} ];
     text := None |}.

(** A response of free text, without a tool selection. *)
Definition saying (s : string) : Response :=
  {| function_calls := []; text := Some s |}.

(** A model that gives [primary] to the chat message and [handoff] to a
    stateless call. *)
Definition answering (primary handoff : outcome Response) : GenerativeModel :=
  {| model_generate_content := fun _ _ => handoff;
     model_chat_send_message := fun _ _ _ => primary |}.

Definition task_input : string :=
  "Need to review the Q3 report by Friday. This is a very high priority for work.".

Definition note_input : string :=
  "Meeting summary from yesterday: we discussed the new RAG system architecture.".

Definition high_task_args : kwargs :=
  {[ "raw_task_text" := VStr "Review the Q3 report by Friday";
     "action" := VStr "do";
     "priority" := VStr "high";
     "context_tag" := VStr "#Work";
     "due_date" := VNone ]}.

Definition model_high_task : GenerativeModel :=
  answering (Returned (calling "TaskCategorizerSchema" high_task_args))
            (Returned (saying "")).

(** A task candidate without [context_tag]. *)
Definition untagged_task_args : kwargs :=
  {[ "raw_task_text" := VStr "Review the Q3 report by Friday";
     "action" := VStr "do";
     "priority" := VStr "high" ]}.

Definition model_untagged_task : GenerativeModel :=
  answering (Returned (calling "TaskCategorizerSchema" untagged_task_args))
            (Returned (saying "")).

(** A task candidate whose [priority] is none of the three literals. *)
Definition urgent_task_args : kwargs :=
  {[ "raw_task_text" := VStr "Review the Q3 report by Friday";
     "action" := VStr "do";
     "priority" := VStr "urgent";
     "context_tag" := VStr "#Work" ]}.

Definition model_urgent_task : GenerativeModel :=
  answering (Returned (calling "TaskCategorizerSchema" urgent_task_args))
            (Returned (saying "")).

(** A task candidate with two context tags. *)
Definition two_tag_task_args : kwargs :=
  {[ "raw_task_text" := VStr "Review the Q3 report by Friday";
     "action" := VStr "do";
     "priority" := VStr "medium";
     "context_tag" := VList [VStr "#Work"; VStr "#Finance"] ]}.

Definition model_two_tag_task : GenerativeModel :=
  answering (Returned (calling "TaskCategorizerSchema" two_tag_task_args))
            (Returned (saying "")).

Definition eight_bullets : list value :=
  [ VStr "b1"; VStr "b2"; VStr "b3"; VStr "b4";
    VStr "b5"; VStr "b6"; VStr "b7"; VStr "b8" ].

Definition budget_task : value :=
  VStr "Follow up with Jane on the final budget".

(** A note with eight summary bullets and an embedded task. *)
Definition note_args : kwargs :=
  {[ "original_source" := VStr "Meeting summary";
     "summary_bullets" := VList eight_bullets;
     "conceptual_tags" := VList [VStr "RAG Systems"];
     "embedded_task" := budget_task ]}.

Definition handoff_task_args : kwargs :=
  {[ "raw_task_text" := VStr "Follow up with Jane on the final budget";
     "action" := VStr "do";
     "priority" := VStr "high";
     "context_tag" := VStr "#Finance" ]}.

Definition model_note_with_task : GenerativeModel :=
  answering (Returned (calling "NoteSynthesizerSchema" note_args))
            (Returned (calling "TaskCategorizerSchema" handoff_task_args)).

(** A note whose embedded task is the empty string. *)
Definition empty_task_note_args : kwargs :=
  {[ "original_source" := VStr "Meeting summary";
     "summary_bullets" := VList [VStr "b1"];
     "conceptual_tags" := VList [];
     "embedded_task" := VStr "" ]}.

Definition model_note_empty_task : GenerativeModel :=
  answering (Returned (calling "NoteSynthesizerSchema" empty_task_note_args))
            (Returned (calling "TaskCategorizerSchema" handoff_task_args)).

(** A note whose mapping has no [embedded_task] key. *)
Definition keyless_note_args : kwargs :=
  {[ "original_source" := VStr "Meeting summary";
     "summary_bullets" := VList [VStr "b1"];
     "conceptual_tags" := VList [] ]}.

Definition model_note_keyless : GenerativeModel :=
  answering (Returned (calling "NoteSynthesizerSchema" keyless_note_args))
            (Returned (calling "TaskCategorizerSchema" handoff_task_args)).

Definition model_primary_fails : GenerativeModel :=
  answering (Raised (APIError "deadline exceeded"))
            (Returned (calling "TaskCategorizerSchema" handoff_task_args)).

Definition model_handoff_fails : GenerativeModel :=
  answering (Returned (calling "NoteSynthesizerSchema" note_args))
            (Raised (APIError "deadline exceeded")).

Definition model_handoff_silent : GenerativeModel :=
  answering (Returned (calling "NoteSynthesizerSchema" note_args))
            (Returned (saying "I could not categorize this.")).

(** The hand-off answer selects the note schema instead of the task one,
    with a mapping that itself holds an embedded task. *)
Definition model_handoff_wrong_schema : GenerativeModel :=
  answering (Returned (calling "NoteSynthesizerSchema" note_args))
            (Returned (calling "NoteSynthesizerSchema" note_args)).

(** The hand-off answer proposes a task without [context_tag]. *)
Definition model_handoff_untagged : GenerativeModel :=
  answering (Returned (calling "NoteSynthesizerSchema" note_args))
            (Returned (calling "TaskCategorizerSchema" untagged_task_args)).

(** The hand-off answer holds two function calls. *)
Definition model_two_handoff_calls : GenerativeModel :=
  answering
    (Returned (calling "NoteSynthesizerSchema" note_args))
    (Returned
       {| function_calls :=
            [ {| name := "TaskCategorizerSchema"; args := handoff_task_args |};
              {| name := "TaskCategorizerSchema"; args := urgent_task_args |} ];
          text := None |}).

(** The primary answer holds two function calls. *)
Definition model_two_calls : GenerativeModel :=
  answering
    (Returned
       {| function_calls :=
            [ {| name := "TaskCategorizerSchema"; args := high_task_args |};
              {| name := "NoteSynthesizerSchema"; args := note_args |} ];
          text := None |})
    (Returned (calling "TaskCategorizerSchema" handoff_task_args)).

(** The primary answer names a tool that does not exist, and has text. *)
Definition model_unknown_tool : GenerativeModel :=
  answering
    (Returned
       {| function_calls :=
            [ {| name := "CalendarSchema"; args := high_task_args |} ];
          text := Some "I would rather schedule this." |})
    (Returned (saying "")).

(** The primary answer is free text. *)
Definition model_free_text : GenerativeModel :=
  answering (Returned (saying "Could you clarify the request?"))
            (Returned (saying "")).

(** ** The console and the outcome of the [try] block *)

(** What the run printed, in order. *)
Definition run_console (raw_input : string) (client : Client)
  : list ConsoleLine :=
  console (snd (process_input_run raw_input client)).

(** How the [try] block ends once the configuration and the chat exist:
    normally, with an exception that the [except] clauses then catch, or
    with one that they let through. *)
Definition try_block_outcome (raw_input : string) (client : Client)
  : completion unit :=
  fst (try_block raw_input client
         {| chat_client := client; chat_history := preamble |} primary_config
         (state_before_try raw_input)).

(** The line the [except] clauses print for an exception. *)
Definition error_line (e : exn) : ConsoleLine :=
  match e with
  | APIError _ => ApiErrorOccurred e
  | _ => UnexpectedErrorOccurred e
  end.

Definition is_error_line (line : ConsoleLine) : bool :=
  match line with
  | ApiErrorOccurred _ | UnexpectedErrorOccurred _ => true
  | _ => false
  end.



Definition is_model_output_line (line : ConsoleLine) : bool :=
  match line with
  | ModelOutput _ => true
  | _ => false
  end.

(** The line of lines 194-195 of the source for a response, printed when
    nothing was recorded: the response text if it is true as a Python
    value, nothing otherwise. *)
Definition model_output_lines (resp : Response) : list ConsoleLine :=
  if text_truthy (text resp)
  then [ModelOutput (default "" (text resp))]
  else [].

(** The paths through the function once more, now with the console and the
    outcome of the [try] block. *)
Inductive run_trace (raw_input : string) (model : GenerativeModel)
  : list ToolResult -> list Request -> list ConsoleLine -> outcome unit
    -> Prop :=
| trace_primary_raises e :
    primary_answer raw_input model = Raised e ->
    run_trace raw_input model [] [primary_request raw_input]
      [ProcessingInput raw_input; error_line e]
      (Raised e)
| trace_no_function_call resp :
    primary_answer raw_input model = Returned resp ->
    function_calls resp = [] ->
    run_trace raw_input model [] [primary_request raw_input]
      (ProcessingInput raw_input :: model_output_lines resp)
      (Returned tt)
| trace_unknown_tool resp fc rest :
    primary_answer raw_input model = Returned resp ->
    function_calls resp = fc :: rest ->
    name fc <> schema_name TaskCategorizerSchema ->
    name fc <> schema_name NoteSynthesizerSchema ->
    run_trace raw_input model [] [primary_request raw_input]
      (ProcessingInput raw_input :: UnknownTool (name fc)
         :: model_output_lines resp)
      (Returned tt)
| trace_task resp fc rest :
    primary_answer raw_input model = Returned resp ->
    function_calls resp = fc :: rest ->
    name fc = schema_name TaskCategorizerSchema ->
    run_trace raw_input model
      [categorize_task (args fc)] [primary_request raw_input]
      [ProcessingInput raw_input; ToolCalled (name fc)]
      (Returned tt)
| trace_note_without_key resp fc rest :
    primary_answer raw_input model = Returned resp ->
    function_calls resp = fc :: rest ->
    name fc = schema_name NoteSynthesizerSchema ->
    args fc !! "embedded_task" = None ->
    run_trace raw_input model
      [synthesize_note (args fc)] [primary_request raw_input]
      [ProcessingInput raw_input; ToolCalled (name fc);
       UnexpectedErrorOccurred (KeyError "embedded_task")]
      (Raised (KeyError "embedded_task"))
| trace_note_without_task resp fc rest v :
    primary_answer raw_input model = Returned resp ->
    function_calls resp = fc :: rest ->
    name fc = schema_name NoteSynthesizerSchema ->
    args fc !! "embedded_task" = Some v ->
    truthy v = false ->
    run_trace raw_input model
      [synthesize_note (args fc)] [primary_request raw_input]
      [ProcessingInput raw_input; ToolCalled (name fc)]
      (Returned tt)
| trace_handoff_raises resp fc rest v e :
    primary_answer raw_input model = Returned resp ->
    function_calls resp = fc :: rest ->
    name fc = schema_name NoteSynthesizerSchema ->
    args fc !! "embedded_task" = Some v ->
    truthy v = true ->
    handoff_answer model v = Raised e ->
    run_trace raw_input model
      [synthesize_note (args fc)]
      [primary_request raw_input; handoff_request v]
      [ProcessingInput raw_input; ToolCalled (name fc); HandoffFound;
       error_line e]
      (Raised e)
| trace_handoff_no_function_call resp fc rest v resp2 :
    primary_answer raw_input model = Returned resp ->
    function_calls resp = fc :: rest ->
    name fc = schema_name NoteSynthesizerSchema ->
    args fc !! "embedded_task" = Some v ->
    truthy v = true ->
    handoff_answer model v = Returned resp2 ->
    function_calls resp2 = [] ->
    run_trace raw_input model
      [synthesize_note (args fc)]
      [primary_request raw_input; handoff_request v]
      [ProcessingInput raw_input; ToolCalled (name fc); HandoffFound;
       HandoffFailure]
      (Returned tt)
| trace_handoff_recorded resp fc rest v resp2 fc2 rest2 :
    primary_answer raw_input model = Returned resp ->
    function_calls resp = fc :: rest ->
    name fc = schema_name NoteSynthesizerSchema ->
    args fc !! "embedded_task" = Some v ->
    truthy v = true ->
    handoff_answer model v = Returned resp2 ->
    function_calls resp2 = fc2 :: rest2 ->
    run_trace raw_input model
      [synthesize_note (args fc); categorize_task (args fc2)]
      [primary_request raw_input; handoff_request v]
      [ProcessingInput raw_input; ToolCalled (name fc); HandoffFound;
       HandoffSuccess]
      (Returned tt).

(** A model that answers as [model] does, with the text of every response
    replaced by [t]. *)
Definition replace_text (t : option string) (o : outcome Response)
  : outcome Response :=
  match o with
  | Returned r => Returned {| function_calls := function_calls r; text := t |}
  | Raised e => Raised e
  end.

Definition with_response_text (t : option string) (model : GenerativeModel)
  : GenerativeModel :=
  {| model_generate_content := fun prompt config =>
       replace_text t (model_generate_content model prompt config);
     model_chat_send_message := fun history msg config =>
       replace_text t (model_chat_send_message model history msg config) |}.


(** ** Clients that are not well behaved *)


(** Lines 139-147 of the source complete: the configuration is built and
    the chat is started. *)
Definition setup_completes (client : Client) : Prop :=
  client_construct_config client [TaskCategorizerSchema; NoteSynthesizerSchema]
  = Returned tt
  /\ client_start_chat client preamble = Returned tt.

(** Whatever the calls made inside the [try] block raise derives from
    [Exception]. *)
Definition raises_only_exceptions (client : Client) : Prop :=
  (forall history msg config b,
      client_chat_send_message client history msg config <> Escapes b)
  /\ (forall prompt config b,
        client_generate_content client prompt config <> Escapes b)
  /\ (forall offered b, client_construct_config client offered <> Escapes b).




(** ** Basic facts about the run *)

Lemma TOOL_FUNCTIONS_lookup (n : string) :
  TOOL_FUNCTIONS !! n =
    if String.eqb n "TaskCategorizerSchema" then Some categorize_task
    else if String.eqb n "NoteSynthesizerSchema" then Some synthesize_note
    else None.
Proof.
  unfold TOOL_FUNCTIONS; cbn [schema_name].
  destruct (String.eqb_spec n "TaskCategorizerSchema") as [->|Htask].
  - reflexivity.
  - rewrite lookup_insert_ne by congruence.
    destruct (String.eqb_spec n "NoteSynthesizerSchema") as [->|Hnote].
    + reflexivity.
    + apply lookup_singleton_ne; congruence.
Qed.

Ltac unfold_run :=
  unfold recorded_results, requests_sent, run_console, try_block_outcome,
    state_before_try, model_output_lines, process_input_with_orchestrator,
    process_input_run, orchestrator_body, try_except, try_block,
    tool_call_loop, a2a_handoff, handoff_condition, send_message,
    generate_content, construct_config, start_chat, external_call,
    record_request, read_final_results,
    append_result, print, subscript, result_subscript, raise,
    initial_state, mbind, M_bind, mret, M_ret;
  cbn [chat_client chat_history final_results console sent fst snd
       well_behaved client_construct_config client_start_chat
       client_chat_send_message client_generate_content].

(** Every run with a well-behaved model follows one of the paths: the
    trace gives what is recorded, sent and printed and how the [try] block
    ends, and the function returns the recorded list. *)
Lemma process_input_run_cases (raw_input : string) (model : GenerativeModel) :
  exists out,
    run_trace raw_input model
      (recorded_results raw_input model) (requests_sent raw_input model)
      (run_console raw_input model) out
    /\ try_block_outcome raw_input model = Completes out
    /\ process_input_with_orchestrator raw_input model
       = Returned (recorded_results raw_input model).
Proof.
  pose proof (trace_no_function_call raw_input model) as Hsilent.
  pose proof (trace_unknown_tool raw_input model) as Hunknown.
  unfold model_output_lines in Hsilent, Hunknown.
  unfold_run.
  change {| tools := [TaskCategorizerSchema; NoteSynthesizerSchema] |}
    with primary_config.
  change {| tools := [TaskCategorizerSchema] |} with a2a_config.
  destruct (model_chat_send_message model preamble raw_input primary_config)
    as [resp|e] eqn:Hprimary.
  2: { eexists; split; [|split; [reflexivity|]].
       - destruct e; cbn;
           exact (trace_primary_raises raw_input model _ Hprimary).
       - destruct e; reflexivity. }
  destruct (function_calls resp) as [|fc rest] eqn:Hcalls.
  { specialize (Hsilent resp Hprimary Hcalls).
    destruct (text_truthy (text resp)); cbn;
      (eexists; split; [exact Hsilent|split; reflexivity]). }
  rewrite TOOL_FUNCTIONS_lookup.
  destruct (String.eqb_spec (name fc) "TaskCategorizerSchema") as [Htask|Htask].
  { rewrite Htask; cbn. rewrite <- Htask.
    eexists; split; [eapply trace_task; eassumption|split; reflexivity]. }
  destruct (String.eqb_spec (name fc) "NoteSynthesizerSchema") as [Hnote|Hnote].
  2: { specialize (Hunknown resp fc rest Hprimary Hcalls Htask Hnote).
       destruct (text_truthy (text resp)); cbn;
         (eexists; split; [exact Hunknown|split; reflexivity]). }
  rewrite Hnote. cbn.
  destruct (args fc !! "embedded_task") as [v|] eqn:Hkey.
  2: { cbn. rewrite <- Hnote.
       eexists; split;
         [eapply trace_note_without_key; eassumption|split; reflexivity]. }
  cbn. destruct (truthy v) eqn:Htruthy.
  2: { cbn. rewrite <- Hnote.
       eexists; split;
         [eapply trace_note_without_task; eassumption|split; reflexivity]. }
  destruct (model_generate_content model (a2a_prompt v) a2a_config)
    as [resp2|e] eqn:Hhandoff.
  2: { eexists; split; [|split; [reflexivity|]].
       - destruct e; cbn; rewrite <- Hnote;
           exact (trace_handoff_raises raw_input model resp fc rest v _
                    Hprimary Hcalls Hnote Hkey Htruthy Hhandoff).
       - destruct e; reflexivity. }
  destruct (function_calls resp2) as [|fc2 rest2] eqn:Hcalls2.
  - cbn. rewrite <- Hnote.
    eexists; split;
      [eapply trace_handoff_no_function_call; eassumption|split; reflexivity].
  - cbn. rewrite <- Hnote.
    eexists; split;
      [eapply trace_handoff_recorded; eassumption|split; reflexivity].
Qed.

(** With a well-behaved model the function gives its caller the
    accumulated list. *)
Lemma process_returns_recorded (raw_input : string) (model : GenerativeModel) :
  process_input_with_orchestrator raw_input model
  = Returned (recorded_results raw_input model).
Proof.
  destruct (process_input_run_cases raw_input model) as (out & _ & _ & H).
  exact H.
Qed.

Lemma run_trace_path (raw_input : string) (model : GenerativeModel)
    (rs : list ToolResult) (rq : list Request) (cs : list ConsoleLine)
    (out : outcome unit) :
  run_trace raw_input model rs rq cs out -> run_path raw_input model rs rq.
Proof.
  intros T.
  destruct T;
    [ eapply path_primary_raises
    | eapply path_no_function_call
    | eapply path_unknown_tool
    | eapply path_task
    | eapply path_note_without_key
    | eapply path_note_without_task
    | eapply path_handoff_raises
    | eapply path_handoff_no_function_call
    | eapply path_handoff_recorded ];
    try eassumption.
  rewrite TOOL_FUNCTIONS_lookup.
  cbn [schema_name] in *.
  repeat match goal with
    | H : name ?f <> _ |- _ => apply String.eqb_neq in H; rewrite H
    end.
  reflexivity.
Qed.

Lemma process_input_run_path (raw_input : string) (model : GenerativeModel) :
  run_path raw_input model
    (recorded_results raw_input model) (requests_sent raw_input model).
Proof.
  destruct (process_input_run_cases raw_input model) as (out & T & _ & _).
  exact (run_trace_path _ _ _ _ _ _ T).
Qed.

(** The paths exclude one another: the model's answers fix the results and
    the requests. *)
Lemma run_path_functional (raw_input : string) (model : GenerativeModel)
    (rs rs' : list ToolResult) (rq rq' : list Request) :
  run_path raw_input model rs rq ->
  run_path raw_input model rs' rq' ->
  rs = rs' /\ rq = rq'.
Proof.
  intros P Q.
  destruct P; destruct Q;
    repeat match goal with
      | H : TOOL_FUNCTIONS !! _ = None |- _ =>
          rewrite TOOL_FUNCTIONS_lookup in H
      | H : ?x = _, H' : ?x = _ |- _ => rewrite H in H'; simplify_eq
      end;
    cbn in *; try congruence; auto;
    match goal with
    | H : name ?f = _, H' : context [String.eqb (name ?f) _] |- _ =>
        rewrite H in H'; discriminate H'
    end.
Qed.

Lemma run_path_determines (raw_input : string) (model : GenerativeModel)
    (rs : list ToolResult) (rq : list Request) :
  run_path raw_input model rs rq ->
  recorded_results raw_input model = rs /\ requests_sent raw_input model = rq.
Proof.
  intros P.
  exact (run_path_functional _ _ _ _ _ _ (process_input_run_path _ _) P).
Qed.

(** Settle a goal about a run whose path is fixed by the hypotheses. *)
Ltac follow_path :=
  let Hrs := fresh "Hrs" in
  let Hrq := fresh "Hrq" in
  edestruct run_path_determines as [Hrs Hrq];
  [ solve [ econstructor; eauto ] | rewrite ?Hrs, ?Hrq ].

(** Case analysis on the path the run took. *)
Ltac path_cases raw_input model :=
  let rs := fresh "rs" in
  let rq := fresh "rq" in
  let P := fresh "P" in
  pose proof (process_input_run_path raw_input model) as P;
  remember (recorded_results raw_input model) as rs;
  remember (requests_sent raw_input model) as rq;
  destruct P.

(** The first function call of an answer, from the hypotheses that give
    the answer and its calls. *)
Ltac first_call_known :=
  match goal with
  | Hanswer : ?o = Returned ?resp, Hcalls : function_calls ?resp = _
    |- first_call ?o = _ =>
      rewrite Hanswer; cbn [first_call]; rewrite Hcalls; reflexivity
  end.

Lemma is_task_categorize (kw : kwargs) : is_task (categorize_task kw) = true.
Proof. reflexivity. Qed.

Lemma is_task_synthesize (kw : kwargs) : is_task (synthesize_note kw) = false.
Proof. reflexivity. Qed.

Lemma is_note_synthesize (kw : kwargs) : is_note (synthesize_note kw) = true.
Proof. reflexivity. Qed.

Lemma is_note_categorize (kw : kwargs) : is_note (categorize_task kw) = false.
Proof. reflexivity. Qed.

(** A run records at most one task. *)
Lemma at_most_one_task_per_run (raw_input : string) (model : GenerativeModel) :
  length (List.filter is_task (recorded_results raw_input model)) <= 1.
Proof.
  path_cases raw_input model; cbn; lia.
Qed.

Lemma high_priority_count_le_tasks (rs : list ToolResult) :
  high_priority_count rs <= length (List.filter is_task rs).
Proof.
  unfold high_priority_count, is_high_priority_task.
  induction rs as [|r rs IH]; cbn; [lia|].
  destruct (is_task r); cbn; [|exact IH].
  destruct (output r !! "priority") as [[|p|]|]; cbn; try lia.
  destruct (String.eqb p "high"); cbn; lia.
Qed.

(** ** The properties *)

(** C1 (as amended).  A recorded task carries exactly the argument mapping
    of a function call the model returned, so its priority is the one the
    model proposed: no counter is kept and nothing is downgraded.  A run
    records at most one task, so at most one recorded task of a run is of
    high priority. *)
Theorem priority_recorded_as_proposed
    (raw_input : string) (model : GenerativeModel) (r : ToolResult) :
  In r (recorded_results raw_input model) ->
  is_task r = true ->
  (exists fc,
      (first_call (primary_answer raw_input model) = Some fc
       \/ exists v, first_call (handoff_answer model v) = Some fc)
      /\ output r = args fc
      /\ output r !! "priority" = args fc !! "priority")
  /\ high_priority_count (recorded_results raw_input model) <= 1.
Proof.
  intros Hin Htask. split.
  - revert Hin. path_cases raw_input model; cbn; intros Hin;
      repeat match goal with
        | H : _ \/ _ |- _ => destruct H
        | H : False |- _ => destruct H
        end;
      subst r; try discriminate Htask.
    + exists fc. repeat split; try reflexivity.
      left. first_call_known.
    + exists fc2. repeat split; try reflexivity.
      right. exists v. first_call_known.
  - etransitivity; [apply high_priority_count_le_tasks|].
    apply at_most_one_task_per_run.
Qed.

(** C2 (as amended).  When the primary extraction selects the note schema
    with more than five summary bullets, the recorded note holds all of
    them, in their order: nothing is truncated. *)
Theorem summary_bullets_recorded_unchanged
    (raw_input : string) (model : GenerativeModel)
    (resp : Response) (fc : FunctionCall) (rest : list FunctionCall)
    (bullets : list value) :
  primary_answer raw_input model = Returned resp ->
  function_calls resp = fc :: rest ->
  name fc = schema_name NoteSynthesizerSchema ->
  args fc !! "summary_bullets" = Some (VList bullets) ->
  5 < length bullets ->
  exists r,
    primary_result raw_input model = Some r
    /\ is_note r = true
    /\ output r !! "summary_bullets" = Some (VList bullets).
Proof.
  intros Hprimary Hcalls Hname Hbullets _.
  exists (synthesize_note (args fc)).
  split; [|split; [reflexivity|exact Hbullets]].
  unfold primary_result.
  path_cases raw_input model; subst;
    repeat match goal with
      | H : TOOL_FUNCTIONS !! _ = None |- _ =>
          rewrite TOOL_FUNCTIONS_lookup in H
      | H : ?x = _, H' : ?x = _ |- _ => rewrite H in H'; simplify_eq
      end;
    cbn in *; try congruence;
    match goal with
    | H : name ?f = _, H' : context [String.eqb (name ?f) _] |- _ =>
        rewrite H in H'; discriminate H'
    end.
Qed.

(** C3 (as amended).  A task candidate that lacks a required field, or
    holds a value outside the literals a field is limited to, is recorded
    all the same, with its mapping unchanged and without any exception:
    the run validates nothing.  This holds for both places a task
    candidate comes from: the primary answer and the hand-off answer. *)
Theorem task_candidate_recorded_unvalidated
    (raw_input : string) (model : GenerativeModel) :
  (forall resp fc rest,
     primary_answer raw_input model = Returned resp ->
     function_calls resp = fc :: rest ->
     name fc = schema_name TaskCategorizerSchema ->
     missing_required TaskCategorizerSchema (args fc) <> []
     \/ outside_declared_set TaskCategorizerSchema (args fc) <> [] ->
     process_input_with_orchestrator raw_input model
     = Returned [categorize_task (args fc)]
     /\ output (categorize_task (args fc)) = args fc
     /\ try_block_outcome raw_input model = Returned tt)
  /\
  (forall resp fc rest v resp2 fc2 rest2,
     primary_answer raw_input model = Returned resp ->
     function_calls resp = fc :: rest ->
     name fc = schema_name NoteSynthesizerSchema ->
     args fc !! "embedded_task" = Some v ->
     truthy v = true ->
     handoff_answer model v = Returned resp2 ->
     function_calls resp2 = fc2 :: rest2 ->
     missing_required TaskCategorizerSchema (args fc2) <> []
     \/ outside_declared_set TaskCategorizerSchema (args fc2) <> [] ->
     process_input_with_orchestrator raw_input model
     = Returned [synthesize_note (args fc); categorize_task (args fc2)]
     /\ output (categorize_task (args fc2)) = args fc2
     /\ try_block_outcome raw_input model = Returned tt).
Proof.
  split.
  - intros resp fc rest Hprimary Hcalls Hname _.
    rewrite process_returns_recorded.
    destruct (process_input_run_cases raw_input model) as (out & T & -> & _).
    destruct (run_path_determines raw_input model _ _
                (path_task raw_input model resp fc rest Hprimary Hcalls Hname))
      as [Hrs Hrq].
    rewrite Hrs in *. split; [reflexivity|]. split; [reflexivity|].
    remember (requests_sent raw_input model) as rq.
    remember (run_console raw_input model) as cs.
    remember [categorize_task (args fc)] as rs.
    destruct T; try discriminate; reflexivity.
  - intros resp fc rest v resp2 fc2 rest2
      Hprimary Hcalls Hname Hkey Htruthy Hhandoff Hcalls2 _.
    rewrite process_returns_recorded.
    destruct (process_input_run_cases raw_input model) as (out & T & -> & _).
    destruct (run_path_determines raw_input model _ _
                (path_handoff_recorded raw_input model resp fc rest v resp2
                   fc2 rest2 Hprimary Hcalls Hname Hkey Htruthy Hhandoff
                   Hcalls2))
      as [Hrs Hrq].
    rewrite Hrs in *. split; [reflexivity|]. split; [reflexivity|].
    remember (requests_sent raw_input model) as rq.
    remember (run_console raw_input model) as cs.
    remember [synthesize_note (args fc); categorize_task (args fc2)] as rs.
    destruct T; try discriminate; reflexivity.
Qed.

(** C4 (as amended).  A hand-off is attempted exactly when the primary
    result is a note whose embedded task is present and true as a Python
    value (not [None], not empty).  The one hand-off request offers the task
    schema only and its prompt is built from the embedded task. *)
Theorem handoff_iff_truthy_embedded_task
    (raw_input : string) (model : GenerativeModel) :
  handoffs_attempted raw_input model =
    match primary_result raw_input model ≫= embedded_task_of with
    | Some v =>
        if truthy v then
          [ {| endpoint := GenerateContent;
               prior_turns := [];
               message :=
                 "Process this embedded task using the TaskCategorizer: "
                   +:+ format_value v
                   +:+ ". Remember the minimalist rules.";
               request_config := {| tools := [TaskCategorizerSchema] |} |} ]
        else []
    | None => []
    end.
Proof.
  unfold handoffs_attempted, primary_result.
  path_cases raw_input model; cbn;
    repeat match goal with
      | H : args _ !! "embedded_task" = _ |- _ => rewrite H
      | H : truthy _ = _ |- _ => rewrite H
      end;
    reflexivity.
Qed.

(** The hand-off request never carries the preamble. *)
Lemma handoff_requests_without_preamble
    (raw_input : string) (model : GenerativeModel) (rq : Request) :
  In rq (handoffs_attempted raw_input model) -> prior_turns rq = [].
Proof.
  unfold handoffs_attempted.
  path_cases raw_input model; cbn; intros Hin;
    repeat match goal with
      | H : _ \/ _ |- _ => destruct H
      | H : False |- _ => destruct H
      end;
    subst rq; reflexivity.
Qed.

(** C6.  A failing call ends the run with what was recorded before it:
    nothing when the primary call fails (and no hand-off is sent), the
    note when the hand-off call fails. *)
Theorem gateway_failure_returns_accumulated
    (raw_input : string) (model : GenerativeModel) (e : exn) :
  (primary_answer raw_input model = Raised e ->
   process_input_with_orchestrator raw_input model = Returned []
   /\ requests_sent raw_input model = [primary_request raw_input])
  /\
  (forall resp fc rest v,
     primary_answer raw_input model = Returned resp ->
     function_calls resp = fc :: rest ->
     name fc = schema_name NoteSynthesizerSchema ->
     args fc !! "embedded_task" = Some v ->
     truthy v = true ->
     handoff_answer model v = Raised e ->
     process_input_with_orchestrator raw_input model
     = Returned [synthesize_note (args fc)]
     /\ requests_sent raw_input model
        = [primary_request raw_input; handoff_request v]).
Proof.
  split; intros; rewrite process_returns_recorded; follow_path;
    split; reflexivity.
Qed.

(** C7.  The returned list is the primary entry followed by the hand-off
    entry, each present only if its tool ran; a run sends at most one
    hand-off request and at most two requests in all, whatever the hand-off
    answer holds. *)
Theorem results_in_invocation_order
    (raw_input : string) (model : GenerativeModel) :
  process_input_with_orchestrator raw_input model
  = Returned (primary_entry raw_input model ++ handoff_entry raw_input model)%list
  /\ length (primary_entry raw_input model) <= 1
  /\ length (handoff_entry raw_input model) <= 1
  /\ length (handoffs_attempted raw_input model) <= 1
  /\ length (requests_sent raw_input model) <= 2.
Proof.
  rewrite process_returns_recorded.
  unfold primary_entry, handoff_entry, handoffs_attempted.
  path_cases raw_input model;
    repeat match goal with
      | H : TOOL_FUNCTIONS !! _ = None |- _ =>
          rewrite TOOL_FUNCTIONS_lookup in H
      | H : handoff_answer _ _ = _ |- _ => unfold handoff_answer in H
      | H : primary_answer _ _ = _ |- _ => rewrite H; clear H
      end;
    cbn [first_call head List.filter is_handoff endpoint primary_request
         handoff_request message request_config];
    repeat match goal with
      | H : function_calls _ = _ |- _ => rewrite H; clear H
      | H : model_generate_content _ _ _ = _ |- _ => rewrite H; clear H
      end;
    cbn [first_call head];
    repeat match goal with
      | H : function_calls _ = _ |- _ => rewrite H; clear H
      end;
    cbn [first_call head];
    rewrite ?TOOL_FUNCTIONS_lookup;
    repeat match goal with
      | H : name _ = _ |- _ => rewrite H; clear H
      | H : _ = None |- _ => rewrite H; clear H
      end;
    cbn; repeat split; lia.
Qed.

(** Whatever tool a function call of the hand-off answer names, its
    arguments are recorded as a task after the note. *)
Lemma handoff_call_recorded_as_task
    (raw_input : string) (model : GenerativeModel)
    (resp resp2 : Response) (fc fc2 : FunctionCall)
    (rest rest2 : list FunctionCall) (v : value) :
  primary_answer raw_input model = Returned resp ->
  function_calls resp = fc :: rest ->
  name fc = schema_name NoteSynthesizerSchema ->
  args fc !! "embedded_task" = Some v ->
  truthy v = true ->
  handoff_answer model v = Returned resp2 ->
  function_calls resp2 = fc2 :: rest2 ->
  recorded_results raw_input model
  = [synthesize_note (args fc); categorize_task (args fc2)].
Proof. intros. follow_path. reflexivity. Qed.

(** C8 (as amended).  When the hand-off answer holds no function call, no
    hand-off entry is appended and the recorded note stays as it was. *)
Theorem handoff_without_call_keeps_primary
    (raw_input : string) (model : GenerativeModel)
    (resp resp2 : Response) (fc : FunctionCall)
    (rest : list FunctionCall) (v : value) :
  primary_answer raw_input model = Returned resp ->
  function_calls resp = fc :: rest ->
  name fc = schema_name NoteSynthesizerSchema ->
  args fc !! "embedded_task" = Some v ->
  truthy v = true ->
  handoff_answer model v = Returned resp2 ->
  function_calls resp2 = [] ->
  process_input_with_orchestrator raw_input model
  = Returned [synthesize_note (args fc)]
  /\ requests_sent raw_input model
     = [primary_request raw_input; handoff_request v].
Proof.
  intros. rewrite process_returns_recorded. follow_path. split; reflexivity.
Qed.




Lemma well_behaved_setup_completes (model : GenerativeModel) :
  setup_completes model.
Proof. split; reflexivity. Qed.

Lemma well_behaved_raises_only_exceptions (model : GenerativeModel) :
  raises_only_exceptions model.
Proof. repeat split; intros; discriminate. Qed.







Lemma primary_answer_first_calls_only
    (raw_input : string) (model : GenerativeModel) :
  primary_answer raw_input (first_calls_only model)
  = keep_first_call (primary_answer raw_input model).
Proof. reflexivity. Qed.

Lemma handoff_answer_first_calls_only (model : GenerativeModel) (v : value) :
  handoff_answer (first_calls_only model) v
  = keep_first_call (handoff_answer model v).
Proof. reflexivity. Qed.

(** Removing the later function calls of every response leaves the path of
    the run as it is. *)
Lemma run_path_first_calls_only
    (raw_input : string) (model : GenerativeModel)
    (rs : list ToolResult) (rq : list Request) :
  run_path raw_input model rs rq ->
  run_path raw_input (first_calls_only model) rs rq.
Proof.
  intros P.
  destruct P;
    [ eapply path_primary_raises
    | eapply path_no_function_call
    | eapply path_unknown_tool
    | eapply path_task
    | eapply path_note_without_key
    | eapply path_note_without_task
    | eapply path_handoff_raises
    | eapply path_handoff_no_function_call
    | eapply path_handoff_recorded ];
    rewrite ?primary_answer_first_calls_only,
            ?handoff_answer_first_calls_only;
    repeat match goal with
      | H : primary_answer _ _ = _ |- _ => rewrite H; clear H
      | H : handoff_answer _ _ = _ |- _ => rewrite H; clear H
      end;
    cbn [keep_first_call function_calls text];
    try reflexivity; try eassumption;
    repeat match goal with
      | H : function_calls _ = _ |- _ => rewrite H; clear H
      end;
    try reflexivity; eassumption.
Qed.

(** The recorded list is what the first call of the primary answer
    contributes, followed by what the first call of the hand-off answer
    contributes. *)
Lemma recorded_is_primary_then_handoff
    (raw_input : string) (model : GenerativeModel) :
  recorded_results raw_input model
  = (primary_entry raw_input model ++ handoff_entry raw_input model)%list.
Proof.
  unfold primary_entry, handoff_entry, handoffs_attempted.
  path_cases raw_input model;
    repeat match goal with
      | H : TOOL_FUNCTIONS !! _ = None |- _ =>
          rewrite TOOL_FUNCTIONS_lookup in H
      | H : handoff_answer _ _ = _ |- _ => unfold handoff_answer in H
      | H : primary_answer _ _ = _ |- _ => rewrite H; clear H
      end;
    cbn [first_call head List.filter is_handoff endpoint primary_request
         handoff_request message request_config];
    repeat match goal with
      | H : function_calls _ = _ |- _ => rewrite H; clear H
      | H : model_generate_content _ _ _ = _ |- _ => rewrite H; clear H
      end;
    cbn [first_call head];
    repeat match goal with
      | H : function_calls _ = _ |- _ => rewrite H; clear H
      end;
    cbn [first_call head];
    rewrite ?TOOL_FUNCTIONS_lookup;
    repeat match goal with
      | H : name _ = _ |- _ => rewrite H; clear H
      | H : _ = None |- _ => rewrite H; clear H
      end;
    reflexivity.
Qed.

Lemma handoff_entry_at_most_one (raw_input : string) (model : GenerativeModel) :
  length (handoff_entry raw_input model) <= 1.
Proof.
  unfold handoff_entry.
  destruct (handoffs_attempted raw_input model) as [|rq rqs]; [cbn; lia|].
  destruct (first_call _); cbn; lia.
Qed.

(** C10.  Of a response that holds more than one function call, only the
    first is executed and recorded.  For the primary answer: when its first
    call names a known tool, that tool's result for the first call's
    arguments is the first entry, followed only by what the hand-off
    contributes; when its first call names no known tool, nothing is
    recorded, whatever the later calls name.  For the hand-off answer: the
    list is the note and the task for the first call's arguments.  Dropping
    all later calls from every response changes neither the returned list
    nor the requests sent, and a run never records more entries than it
    received responses. *)
Theorem only_first_function_call_used
    (raw_input : string) (model : GenerativeModel) :
  (forall resp fc second rest tool_function,
     primary_answer raw_input model = Returned resp ->
     function_calls resp = fc :: second :: rest ->
     TOOL_FUNCTIONS !! name fc = Some tool_function ->
     process_input_with_orchestrator raw_input model
     = Returned (tool_function (args fc) :: handoff_entry raw_input model)
     /\ length (handoff_entry raw_input model) <= 1)
  /\ (forall resp fc second rest,
        primary_answer raw_input model = Returned resp ->
        function_calls resp = fc :: second :: rest ->
        TOOL_FUNCTIONS !! name fc = None ->
        process_input_with_orchestrator raw_input model = Returned [])
  /\ (forall resp fc rest v resp2 fc2 second2 rest2,
        primary_answer raw_input model = Returned resp ->
        function_calls resp = fc :: rest ->
        name fc = schema_name NoteSynthesizerSchema ->
        args fc !! "embedded_task" = Some v ->
        truthy v = true ->
        handoff_answer model v = Returned resp2 ->
        function_calls resp2 = fc2 :: second2 :: rest2 ->
        process_input_with_orchestrator raw_input model
        = Returned [synthesize_note (args fc); categorize_task (args fc2)])
  /\ process_input_with_orchestrator raw_input (first_calls_only model)
     = process_input_with_orchestrator raw_input model
  /\ requests_sent raw_input (first_calls_only model)
     = requests_sent raw_input model
  /\ length (recorded_results raw_input model)
     <= length (requests_sent raw_input model).
Proof.
  split; [|split; [|split]].
  - intros resp fc second rest tool_function Hprimary Hcalls Htool.
    rewrite process_returns_recorded, recorded_is_primary_then_handoff.
    split; [|apply handoff_entry_at_most_one].
    unfold primary_entry at 1. rewrite Hprimary.
    cbn [first_call]. rewrite Hcalls. cbn [head]. rewrite Htool.
    reflexivity.
  - intros resp fc second rest Hprimary Hcalls Htool.
    rewrite process_returns_recorded.
    destruct (run_path_determines raw_input model _ _
                (path_unknown_tool raw_input model resp fc (second :: rest)
                   Hprimary Hcalls Htool)) as [-> _].
    reflexivity.
  - intros resp fc rest v resp2 fc2 second2 rest2
      Hprimary Hcalls Hname Hkey Htruthy Hhandoff Hcalls2.
    rewrite process_returns_recorded.
    destruct (run_path_determines raw_input model _ _
                (path_handoff_recorded raw_input model resp fc rest v resp2
                   fc2 (second2 :: rest2) Hprimary Hcalls Hname Hkey Htruthy
                   Hhandoff Hcalls2)) as [-> _].
    reflexivity.
  - rewrite !process_returns_recorded.
    destruct (run_path_determines _ _ _ _
                (run_path_first_calls_only _ _ _ _
                   (process_input_run_path raw_input model))) as [-> ->].
    repeat split.
    path_cases raw_input model; cbn; lia.
Qed.

(** ** The trace of a run *)

Lemma except_clauses_print (e : exn) :
  except_clauses e = print (error_line e).
Proof. destruct e; reflexivity. Qed.

Lemma process_input_run_trace (raw_input : string) (model : GenerativeModel) :
  exists out,
    try_block_outcome raw_input model = Completes out
    /\ run_trace raw_input model
         (recorded_results raw_input model) (requests_sent raw_input model)
         (run_console raw_input model) out.
Proof.
  destruct (process_input_run_cases raw_input model) as (out & T & Hout & _).
  exists out. split; [exact Hout|exact T].
Qed.

(** Case analysis on the trace of the run. *)
Ltac trace_cases raw_input model :=
  let rs := fresh "rs" in
  let rq := fresh "rq" in
  let cs := fresh "cs" in
  let out := fresh "out" in
  let Hout := fresh "Hout" in
  let T := fresh "T" in
  destruct (process_input_run_trace raw_input model) as (out & Hout & T);
  rewrite ?Hout; clear Hout;
  remember (recorded_results raw_input model) as rs;
  remember (requests_sent raw_input model) as rq;
  remember (run_console raw_input model) as cs;
  destruct T.

(** Close the cases whose answers disagree with the hypotheses, and
    identify the answers of the remaining one with them. *)
Ltac same_answers :=
  cbn [schema_name] in *;
  repeat match goal with
    | H : primary_answer ?r ?m = _, H' : primary_answer ?r ?m = _ |- _ =>
        rewrite H in H'; simplify_eq
    | H : function_calls ?r = _, H' : function_calls ?r = _ |- _ =>
        rewrite H in H'; simplify_eq
    | H : name ?f = _, H' : name ?f = _ |- _ =>
        rewrite H in H'; simplify_eq
    | H : name ?f = ?n, H' : name ?f <> ?n |- _ => destruct (H' H)
    | H : args ?f !! ?k = _, H' : args ?f !! ?k = _ |- _ =>
        rewrite H in H'; simplify_eq
    | H : truthy ?v = _, H' : truthy ?v = _ |- _ =>
        rewrite H in H'; simplify_eq
    | H : handoff_answer ?m ?v = _, H' : handoff_answer ?m ?v = _ |- _ =>
        rewrite H in H'; simplify_eq
    end.

(** ** Further properties of the run *)

(** A function call that names no known tool is reported and dropped:
    nothing is recorded, nothing more is sent, and the response text, if
    any, is printed as for an answer without a call. *)
Theorem unknown_tool_records_nothing
    (raw_input : string) (model : GenerativeModel)
    (resp : Response) (fc : FunctionCall) (rest : list FunctionCall) :
  primary_answer raw_input model = Returned resp ->
  function_calls resp = fc :: rest ->
  name fc <> "TaskCategorizerSchema" ->
  name fc <> "NoteSynthesizerSchema" ->
  process_input_with_orchestrator raw_input model = Returned []
  /\ requests_sent raw_input model = [primary_request raw_input]
  /\ try_block_outcome raw_input model = Returned tt
  /\ run_console raw_input model
     = ProcessingInput raw_input :: UnknownTool (name fc)
         :: (if text_truthy (text resp)
             then [ModelOutput (default "" (text resp))]
             else []).
Proof.
  intros Hprimary Hcalls Htask Hnote.
  rewrite process_returns_recorded.
  trace_cases raw_input model; same_answers.
  repeat split; reflexivity.
Qed.

(** An answer without a function call records nothing and sends nothing
    more; its text is printed when it is a non-empty string and passed over
    in silence when it is empty or absent. *)
Theorem free_text_answer_printed_not_recorded
    (raw_input : string) (model : GenerativeModel) (resp : Response) :
  primary_answer raw_input model = Returned resp ->
  function_calls resp = [] ->
  process_input_with_orchestrator raw_input model = Returned []
  /\ requests_sent raw_input model = [primary_request raw_input]
  /\ try_block_outcome raw_input model = Returned tt
  /\ run_console raw_input model
     = ProcessingInput raw_input
         :: match text resp with
            | Some t => if String.eqb t "" then [] else [ModelOutput t]
            | None => []
            end.
Proof.
  intros Hprimary Hcalls.
  rewrite process_returns_recorded.
  trace_cases raw_input model; same_answers.
  repeat split; try reflexivity.
  unfold model_output_lines, text_truthy.
  match goal with
  | |- context [text ?r] => destruct (text r) as [t|]; [|reflexivity]
  end.
  destruct (String.eqb t ""); reflexivity.
Qed.

(** The model's text is printed only when nothing was recorded: a console
    with a model-output line belongs to a run that returns the empty list
    and sent the primary request alone. *)
Theorem model_output_only_when_nothing_recorded
    (raw_input : string) (model : GenerativeModel) (t : string) :
  In (ModelOutput t) (run_console raw_input model) ->
  process_input_with_orchestrator raw_input model = Returned []
  /\ requests_sent raw_input model = [primary_request raw_input]
  /\ t <> "".
Proof.
  rewrite process_returns_recorded.
  trace_cases raw_input model; cbn; unfold model_output_lines, text_truthy;
    intros Hin;
    repeat match goal with
      | H : _ \/ _ |- _ => destruct H
      | H : False |- _ => destruct H
      | H : In _ (if ?b then _ else _) |- _ => destruct b eqn:?; cbn in H
      | H : In _ (match ?o with Some _ => _ | None => _ end) |- _ =>
          destruct o eqn:?; cbn in H
      | H : error_line ?e = ModelOutput _ |- _ => destruct e; discriminate H
      end;
    try discriminate;
    simplify_eq; repeat split; try reflexivity;
    match goal with
    | H : match text ?r with Some _ => _ | None => _ end = true |- _ =>
        destruct (text r) as [s|]; [|discriminate H];
        cbn; intros ->; discriminate H
    end.
Qed.

(** A primary answer that selects the task schema ends the run after one
    entry, whatever its mapping holds (an [embedded_task] included): no
    hand-off is sent. *)
Theorem task_answer_never_hands_off
    (raw_input : string) (model : GenerativeModel)
    (resp : Response) (fc : FunctionCall) (rest : list FunctionCall) :
  primary_answer raw_input model = Returned resp ->
  function_calls resp = fc :: rest ->
  name fc = "TaskCategorizerSchema" ->
  process_input_with_orchestrator raw_input model
  = Returned [categorize_task (args fc)]
  /\ requests_sent raw_input model = [primary_request raw_input]
  /\ try_block_outcome raw_input model = Returned tt
  /\ run_console raw_input model
     = [ProcessingInput raw_input; ToolCalled "TaskCategorizerSchema"].
Proof.
  intros Hprimary Hcalls Hname.
  rewrite process_returns_recorded.
  trace_cases raw_input model; same_answers; try discriminate.
  rewrite Hname. repeat split; reflexivity.
Qed.

(** The tools named by the returned list, in order, are one of four
    sequences: none, a task, a note, or a note followed by a task. *)
Theorem recorded_tools_shape (raw_input : string) (model : GenerativeModel) :
  let used := map tool_used (recorded_results raw_input model) in
  used = []
  \/ used = ["TaskCategorizer"]
  \/ used = ["NoteSynthesizer"]
  \/ used = ["NoteSynthesizer"; "TaskCategorizer"].
Proof.
  cbn zeta. path_cases raw_input model; cbn; auto.
Qed.


(** An exception in the [try] block is reported exactly once, as the last
    line, as an API error when it is an [APIError] and as an unexpected
    error otherwise; a block that completes leaves no error line.  (With a
    well-behaved model the block never ends in an exception that is not
    derived from [Exception].) *)
Theorem error_reported_once_and_classified
    (raw_input : string) (model : GenerativeModel) :
  match try_block_outcome raw_input model with
  | Completes (Raised e) =>
      last (run_console raw_input model)
      = Some (match e with
              | APIError _ => ApiErrorOccurred e
              | _ => UnexpectedErrorOccurred e
              end)
      /\ length (List.filter is_error_line (run_console raw_input model)) = 1
  | Completes (Returned _) =>
      List.filter is_error_line (run_console raw_input model) = []
  | Escapes _ => False
  end.
Proof.
  trace_cases raw_input model; cbn; unfold model_output_lines;
    repeat match goal with
      | |- context [error_line ?e] => destruct e; cbn
      | |- context [text_truthy ?t] => destruct (text_truthy t); cbn
      end;
    repeat split; reflexivity.
Qed.

(** A note whose mapping lacks the [embedded_task] key is recorded, and the
    subscript then raises: the run ends there with a [KeyError] reported as
    an unexpected error, and no hand-off is sent. *)
Theorem missing_embedded_task_key_reported
    (raw_input : string) (model : GenerativeModel)
    (resp : Response) (fc : FunctionCall) (rest : list FunctionCall) :
  primary_answer raw_input model = Returned resp ->
  function_calls resp = fc :: rest ->
  name fc = "NoteSynthesizerSchema" ->
  args fc !! "embedded_task" = None ->
  process_input_with_orchestrator raw_input model
  = Returned [synthesize_note (args fc)]
  /\ requests_sent raw_input model = [primary_request raw_input]
  /\ try_block_outcome raw_input model = Raised (KeyError "embedded_task")
  /\ run_console raw_input model
     = [ProcessingInput raw_input; ToolCalled "NoteSynthesizerSchema";
        UnexpectedErrorOccurred (KeyError "embedded_task")].
Proof.
  intros Hprimary Hcalls Hname Hkey.
  rewrite process_returns_recorded.
  trace_cases raw_input model; same_answers; try discriminate.
  rewrite Hname. repeat split; reflexivity.
Qed.

(** A note whose [embedded_task] is present but false as a Python value
    ([None], the empty string, the empty list) ends the run quietly: the
    note is returned, nothing more is sent and no error is reported. *)
Theorem falsy_embedded_task_ends_quietly
    (raw_input : string) (model : GenerativeModel)
    (resp : Response) (fc : FunctionCall) (rest : list FunctionCall)
    (v : value) :
  primary_answer raw_input model = Returned resp ->
  function_calls resp = fc :: rest ->
  name fc = "NoteSynthesizerSchema" ->
  args fc !! "embedded_task" = Some v ->
  v = VNone \/ v = VStr "" \/ v = VList [] ->
  process_input_with_orchestrator raw_input model
  = Returned [synthesize_note (args fc)]
  /\ requests_sent raw_input model = [primary_request raw_input]
  /\ try_block_outcome raw_input model = Returned tt
  /\ run_console raw_input model
     = [ProcessingInput raw_input; ToolCalled "NoteSynthesizerSchema"].
Proof.
  intros Hprimary Hcalls Hname Hkey Hfalsy.
  assert (Htruthy : truthy v = false)
    by (destruct Hfalsy as [->|[->| ->]]; reflexivity).
  rewrite process_returns_recorded.
  trace_cases raw_input model; same_answers; try discriminate.
  rewrite Hname. repeat split; reflexivity.
Qed.

(** A hand-off that is answered with a function call: the list is the note
    followed by a task whose mapping is that of the hand-off answer's first
    call (not the note's, and not the embedded text); two requests were
    sent and the console shows the four steps. *)
Theorem successful_handoff_trace
    (raw_input : string) (model : GenerativeModel)
    (resp resp2 : Response) (fc fc2 : FunctionCall)
    (rest rest2 : list FunctionCall) (v : value) :
  primary_answer raw_input model = Returned resp ->
  function_calls resp = fc :: rest ->
  name fc = "NoteSynthesizerSchema" ->
  args fc !! "embedded_task" = Some v ->
  truthy v = true ->
  handoff_answer model v = Returned resp2 ->
  function_calls resp2 = fc2 :: rest2 ->
  process_input_with_orchestrator raw_input model
  = Returned [synthesize_note (args fc); categorize_task (args fc2)]
  /\ requests_sent raw_input model
     = [primary_request raw_input; handoff_request v]
  /\ try_block_outcome raw_input model = Returned tt
  /\ run_console raw_input model
     = [ProcessingInput raw_input; ToolCalled "NoteSynthesizerSchema";
        HandoffFound; HandoffSuccess].
Proof.
  intros Hprimary Hcalls Hname Hkey Htruthy Hhandoff Hcalls2.
  rewrite process_returns_recorded.
  trace_cases raw_input model; same_answers; try discriminate.
  rewrite Hname. repeat split; reflexivity.
Qed.

(** *** Requests *)


Lemma run_path_with_response_text
    (t : option string) (raw_input : string) (model : GenerativeModel)
    (rs : list ToolResult) (rq : list Request) :
  run_path raw_input model rs rq ->
  run_path raw_input (with_response_text t model) rs rq.
Proof.
  assert (Hprimary : primary_answer raw_input (with_response_text t model)
                     = replace_text t (primary_answer raw_input model))
    by reflexivity.
  assert (Hhandoff : forall v,
             handoff_answer (with_response_text t model) v
             = replace_text t (handoff_answer model v))
    by reflexivity.
  intros P.
  destruct P;
    [ eapply path_primary_raises
    | eapply path_no_function_call
    | eapply path_unknown_tool
    | eapply path_task
    | eapply path_note_without_key
    | eapply path_note_without_task
    | eapply path_handoff_raises
    | eapply path_handoff_no_function_call
    | eapply path_handoff_recorded ];
    rewrite ?Hprimary, ?Hhandoff;
    repeat match goal with
      | H : primary_answer _ _ = _ |- _ => rewrite H; clear H
      | H : handoff_answer _ _ = _ |- _ => rewrite H; clear H
      end;
    cbn [replace_text function_calls text];
    try reflexivity; eassumption.
Qed.

(** The text of a response is never recorded and never steers the run:
    with every response text replaced, the returned list and the requests
    sent stay the same. *)
Theorem response_text_never_recorded
    (t : option string) (raw_input : string) (model : GenerativeModel) :
  process_input_with_orchestrator raw_input (with_response_text t model)
  = process_input_with_orchestrator raw_input model
  /\ requests_sent raw_input (with_response_text t model)
     = requests_sent raw_input model.
Proof.
  rewrite !process_returns_recorded.
  destruct (run_path_determines _ _ _ _
              (run_path_with_response_text t _ _ _ _
                 (process_input_run_path raw_input model))) as [-> ->].
  split; reflexivity.
Qed.

(** *** Dispatch *)

(** The dispatch table and the tools offered to the model agree: a name has
    a tool function exactly when it is the name of an offered schema. *)
Lemma dispatchable_iff_offered (n : string) :
  is_Some (TOOL_FUNCTIONS !! n)
  <-> In n (map schema_name (tools primary_config)).
Proof.
  rewrite TOOL_FUNCTIONS_lookup. cbn.
  destruct (String.eqb_spec n "TaskCategorizerSchema") as [->|Htask].
  { split; [auto|eauto]. }
  destruct (String.eqb_spec n "NoteSynthesizerSchema") as [->|Hnote].
  { split; [auto|eauto]. }
  split.
  - intros [f Hf]. discriminate Hf.
  - intros [H|[H|[]]]; congruence.
Qed.

(** A primary function call that names one of the offered schemas is
    always recorded, first, with its mapping unchanged and under the label
    of that schema's tool (the schema name without its [Schema] ending). *)
Theorem offered_tool_call_is_recorded
    (raw_input : string) (model : GenerativeModel)
    (resp : Response) (fc : FunctionCall) (rest : list FunctionCall)
    (s : Schema) :
  primary_answer raw_input model = Returned resp ->
  function_calls resp = fc :: rest ->
  In s (tools primary_config) ->
  name fc = schema_name s ->
  exists r,
    primary_result raw_input model = Some r
    /\ output r = args fc
    /\ tool_used r +:+ "Schema" = name fc.
Proof.
  intros Hprimary Hcalls _ Hname.
  unfold primary_result.
  destruct s; cbn [schema_name] in Hname;
    path_cases raw_input model;
    repeat match goal with
      | H : TOOL_FUNCTIONS !! _ = None |- _ =>
          rewrite TOOL_FUNCTIONS_lookup in H
      end;
    same_answers;
    try match goal with
      | H : name ?f = _, H' : context [String.eqb (name ?f) _] |- _ =>
          rewrite H in H'; discriminate H'
      end;
    eexists; repeat split; try reflexivity;
    rewrite Hname; reflexivity.
Qed.

(** *** Sessions *)

Lemma at_most_two_entries_per_run (raw_input : string) (model : GenerativeModel) :
  length (recorded_results raw_input model) <= 2.
Proof. path_cases raw_input model; cbn; lia. Qed.

Lemma one_or_two_requests_per_run (raw_input : string) (model : GenerativeModel) :
  1 <= length (requests_sent raw_input model) <= 2.
Proof. path_cases raw_input model; cbn; lia. Qed.

Lemma session_tasks_bound (runs : list (string * GenerativeModel)) :
  length (List.filter is_task (session_results runs)) <= length runs.
Proof.
  unfold session_results.
  induction runs as [|[raw_input model] runs IH];
    cbn [flat_map fst snd length]; [cbn; lia|].
  rewrite List.filter_app, length_app.
  pose proof (at_most_one_task_per_run raw_input model). lia.
Qed.

Lemma session_entries_bound (runs : list (string * GenerativeModel)) :
  length (session_results runs) <= 2 * length runs.
Proof.
  unfold session_results.
  induction runs as [|[raw_input model] runs IH];
    cbn [flat_map fst snd length]; [cbn; lia|].
  rewrite length_app.
  pose proof (at_most_two_entries_per_run raw_input model). lia.
Qed.

(** Over a session of runs, one after the other, the entries number at most
    twice the runs and the tasks (so also the high-priority tasks) at most
    the runs: a session of up to three runs cannot exceed three
    high-priority tasks, a longer one can. *)
Theorem session_bounds (runs : list (string * GenerativeModel)) :
  length (session_results runs) <= 2 * length runs
  /\ length (List.filter is_task (session_results runs)) <= length runs
  /\ high_priority_count (session_results runs) <= length runs.
Proof.
  split; [apply session_entries_bound|].
  split; [apply session_tasks_bound|].
  etransitivity; [apply high_priority_count_le_tasks|].
  apply session_tasks_bound.
Qed.


End Orchestrator.

(** ** Sample runs *)

(** C1: a session of four runs, each proposing a high-priority task.  All
    four are recorded as ['high']: the count reaches 4 and the fourth task
    is not downgraded. *)
Lemma four_high_tasks_stay_high :
  high_priority_count
    (session_results placeholder_rendering
       [ (task_input, model_high_task); (task_input, model_high_task);
         (task_input, model_high_task); (task_input, model_high_task) ])
  = 4
  /\ (session_results placeholder_rendering
        [ (task_input, model_high_task); (task_input, model_high_task);
          (task_input, model_high_task); (task_input, model_high_task) ]
        !! 3) ≫= (fun r => output r !! "priority")
     = Some (VStr "high").
Proof. split; vm_compute; reflexivity. Qed.

(** The task of a sample run is the one the model proposed. *)
Lemma priority_recorded_as_proposed_witness :
  In (categorize_task high_task_args)
     (recorded_results placeholder_rendering task_input model_high_task)
  /\ is_task (categorize_task high_task_args) = true
  /\ ((exists fc,
         (first_call (primary_answer task_input model_high_task) = Some fc
          \/ exists v,
               first_call
                 (handoff_answer placeholder_rendering model_high_task v)
               = Some fc)
         /\ output (categorize_task high_task_args) = args fc
         /\ output (categorize_task high_task_args) !! "priority"
            = args fc !! "priority")
      /\ high_priority_count
           (recorded_results placeholder_rendering task_input model_high_task)
         <= 1).
Proof.
  assert (Hin : In (categorize_task high_task_args)
                  (recorded_results placeholder_rendering task_input
                     model_high_task))
    by (vm_compute; left; reflexivity).
  split; [exact Hin|]. split; [reflexivity|].
  apply (priority_recorded_as_proposed placeholder_rendering task_input
           model_high_task (categorize_task high_task_args) Hin).
  reflexivity.
Defined.

(** C2: a note proposed with eight summary bullets is recorded with all
    eight, not with the first five. *)
Lemma eight_bullets_all_recorded :
  primary_result placeholder_rendering note_input model_note_with_task
    ≫= (fun r => output r !! "summary_bullets")
  = Some (VList eight_bullets)
  /\ length eight_bullets = 8
  /\ VList eight_bullets <> VList (take 5 eight_bullets).
Proof.
  split; [vm_compute; reflexivity|].
  split; [reflexivity|].
  cbn. intros Heq. inversion Heq.
Qed.

(** The eight bullets of the sample note are all recorded. *)
Lemma summary_bullets_recorded_unchanged_witness :
  exists r,
    primary_result placeholder_rendering note_input model_note_with_task
    = Some r
    /\ is_note r = true
    /\ output r !! "summary_bullets" = Some (VList eight_bullets).
Proof.
  apply (summary_bullets_recorded_unchanged placeholder_rendering note_input
           model_note_with_task
           (calling "NoteSynthesizerSchema" note_args)
           {| name := "NoteSynthesizerSchema"; args := note_args |} []
           eight_bullets).
  - reflexivity.
  - reflexivity.
  - reflexivity.
  - vm_compute; reflexivity.
  - cbn; lia.
Defined.

(** C3: a task candidate without [context_tag], one whose [priority] is
    outside the three literals, and one with two context tags are all
    recorded; no error arises. *)
Lemma invalid_task_candidates_recorded :
  missing_required TaskCategorizerSchema untagged_task_args = ["context_tag"]
  /\ process_input_with_orchestrator placeholder_rendering task_input
       model_untagged_task
     = Returned [categorize_task untagged_task_args]
  /\ outside_declared_set TaskCategorizerSchema urgent_task_args = ["priority"]
  /\ process_input_with_orchestrator placeholder_rendering task_input
       model_urgent_task
     = Returned [categorize_task urgent_task_args]
  /\ outside_declared_set TaskCategorizerSchema two_tag_task_args
     = ["context_tag"]
  /\ process_input_with_orchestrator placeholder_rendering task_input
       model_two_tag_task
     = Returned [categorize_task two_tag_task_args].
Proof. repeat split; vm_compute; reflexivity. Qed.

(** The untagged sample candidate is recorded, as the primary answer and
    as the hand-off answer. *)
Lemma task_candidate_recorded_unvalidated_witness :
  (missing_required TaskCategorizerSchema untagged_task_args <> []
   \/ outside_declared_set TaskCategorizerSchema untagged_task_args <> [])
  /\ (process_input_with_orchestrator placeholder_rendering task_input
        model_untagged_task
      = Returned [categorize_task untagged_task_args]
      /\ output (categorize_task untagged_task_args) = untagged_task_args
      /\ try_block_outcome placeholder_rendering task_input model_untagged_task
         = Returned tt)
  /\ (process_input_with_orchestrator placeholder_rendering note_input
        model_handoff_untagged
      = Returned [synthesize_note note_args; categorize_task untagged_task_args]
      /\ output (categorize_task untagged_task_args) = untagged_task_args
      /\ try_block_outcome placeholder_rendering note_input
           model_handoff_untagged
         = Returned tt).
Proof.
  assert (Hinvalid :
            missing_required TaskCategorizerSchema untagged_task_args <> []
            \/ outside_declared_set TaskCategorizerSchema untagged_task_args
               <> [])
    by (left; vm_compute; discriminate).
  split; [exact Hinvalid|]. split.
  - apply (proj1 (task_candidate_recorded_unvalidated placeholder_rendering
                    task_input model_untagged_task)
             (calling "TaskCategorizerSchema" untagged_task_args)
             {| name := "TaskCategorizerSchema"; args := untagged_task_args |}
             []);
      [reflexivity | reflexivity | reflexivity | exact Hinvalid].
  - apply (proj2 (task_candidate_recorded_unvalidated placeholder_rendering
                    note_input model_handoff_untagged)
             (calling "NoteSynthesizerSchema" note_args)
             {| name := "NoteSynthesizerSchema"; args := note_args |} []
             budget_task
             (calling "TaskCategorizerSchema" untagged_task_args)
             {| name := "TaskCategorizerSchema"; args := untagged_task_args |}
             []);
      first [reflexivity | exact Hinvalid].
Defined.

(** C4: the primary result is a note whose embedded task is the empty
    string, which is not [None]; no hand-off is attempted. *)
Lemma empty_embedded_task_no_handoff :
  primary_result placeholder_rendering note_input model_note_empty_task
    ≫= embedded_task_of
  = Some (VStr "")
  /\ is_none (VStr "") = false
  /\ handoffs_attempted placeholder_rendering note_input model_note_empty_task
     = [].
Proof. repeat split; vm_compute; reflexivity. Qed.

(** C5: in a run with a hand-off, the hand-off request carries no prior
    turns, and the instruction text does not occur in its prompt; only the
    primary request carries the preamble. *)
Lemma handoff_request_omits_rules :
  requests_sent placeholder_rendering note_input model_note_with_task
  = [ primary_request note_input;
      handoff_request placeholder_rendering budget_task ]
  /\ prior_turns (primary_request note_input) = preamble
  /\ prior_turns (handoff_request placeholder_rendering budget_task) = []
  /\ String.index 0 SYSTEM_INSTRUCTIONS
       (message (handoff_request placeholder_rendering budget_task))
     = None.
Proof. repeat split; vm_compute; reflexivity. Qed.

(** Sample runs in which the primary call, and then the hand-off call,
    fails. *)
Lemma gateway_failure_returns_accumulated_witness :
  (process_input_with_orchestrator placeholder_rendering task_input
     model_primary_fails
   = Returned []
   /\ requests_sent placeholder_rendering task_input model_primary_fails
      = [primary_request task_input])
  /\
  (process_input_with_orchestrator placeholder_rendering note_input
     model_handoff_fails
   = Returned [synthesize_note note_args]
   /\ requests_sent placeholder_rendering note_input model_handoff_fails
      = [ primary_request note_input;
          handoff_request placeholder_rendering budget_task ]).
Proof.
  split.
  - apply (proj1 (gateway_failure_returns_accumulated placeholder_rendering
                    task_input model_primary_fails
                    (APIError "deadline exceeded"))).
    reflexivity.
  - apply (proj2 (gateway_failure_returns_accumulated placeholder_rendering
                    note_input model_handoff_fails
                    (APIError "deadline exceeded"))
             (calling "NoteSynthesizerSchema" note_args)
             {| name := "NoteSynthesizerSchema"; args := note_args |} []
             budget_task);
      reflexivity.
Defined.

(** C8: the hand-off answer selects the note schema; its arguments are
    recorded as a task entry after the note all the same. *)
Lemma wrong_schema_handoff_recorded :
  first_call
    (handoff_answer placeholder_rendering model_handoff_wrong_schema
       budget_task)
  = Some {| name := "NoteSynthesizerSchema"; args := note_args |}
  /\ process_input_with_orchestrator placeholder_rendering note_input
       model_handoff_wrong_schema
     = Returned [ synthesize_note note_args; categorize_task note_args ].
Proof. split; vm_compute; reflexivity. Qed.

(** C7, on a sample: the mapping recorded by the hand-off holds an embedded
    task of its own, and no further request follows. *)
Lemma handoff_result_not_inspected :
  (recorded_results placeholder_rendering note_input
     model_handoff_wrong_schema !! 1)
    ≫= (fun r => output r !! "embedded_task")
  = Some budget_task
  /\ requests_sent placeholder_rendering note_input model_handoff_wrong_schema
     = [ primary_request note_input;
         handoff_request placeholder_rendering budget_task ].
Proof. split; vm_compute; reflexivity. Qed.

(** C10, on a sample: of two function calls in the primary answer only the
    first is recorded. *)
Lemma second_function_call_ignored :
  process_input_with_orchestrator placeholder_rendering task_input
    model_two_calls
  = Returned [categorize_task high_task_args]
  /\ requests_sent placeholder_rendering task_input model_two_calls
     = [primary_request task_input].
Proof. split; vm_compute; reflexivity. Qed.

(** A sample run in which the hand-off answer is free text. *)
Lemma handoff_without_call_keeps_primary_witness :
  process_input_with_orchestrator placeholder_rendering note_input
    model_handoff_silent
  = Returned [synthesize_note note_args]
  /\ requests_sent placeholder_rendering note_input model_handoff_silent
     = [ primary_request note_input;
         handoff_request placeholder_rendering budget_task ].
Proof.
  apply (handoff_without_call_keeps_primary placeholder_rendering note_input
           model_handoff_silent
           (calling "NoteSynthesizerSchema" note_args)
           (saying "I could not categorize this.")
           {| name := "NoteSynthesizerSchema"; args := note_args |} []
           budget_task);
    reflexivity.
Defined.

(** C9, on a sample: the note's mapping has no [embedded_task] key, the
    subscript raises [KeyError] inside the [try] block after the note was
    recorded, and the caller still gets the note. *)
Lemma keyless_note_raises_inside_try :
  try_block_outcome placeholder_rendering note_input model_note_keyless
  = Raised (KeyError "embedded_task")
  /\ process_input_with_orchestrator placeholder_rendering note_input
       model_note_keyless
     = Returned [synthesize_note keyless_note_args].
Proof. split; vm_compute; reflexivity. Qed.



(** C10 on samples: two calls in the primary answer, two calls in the
    hand-off answer. *)
Lemma only_first_function_call_used_witness :
  (process_input_with_orchestrator placeholder_rendering task_input
     model_two_calls
   = Returned
       (categorize_task high_task_args
          :: handoff_entry placeholder_rendering task_input model_two_calls)
   /\ length (handoff_entry placeholder_rendering task_input model_two_calls)
      <= 1)
  /\ process_input_with_orchestrator placeholder_rendering note_input
       model_two_handoff_calls
     = Returned [synthesize_note note_args; categorize_task handoff_task_args].
Proof.
  split.
  - apply (proj1 (only_first_function_call_used placeholder_rendering
                    task_input model_two_calls)
             {| function_calls :=
                  [ {| name := "TaskCategorizerSchema";
                       args := high_task_args |};
                    {| name := "NoteSynthesizerSchema"; args := note_args |} ];
                text := None |}
             {| name := "TaskCategorizerSchema"; args := high_task_args |}
             {| name := "NoteSynthesizerSchema"; args := note_args |} []
             categorize_task);
      reflexivity.
  - apply (proj1 (proj2 (proj2 (only_first_function_call_used
                                  placeholder_rendering note_input
                                  model_two_handoff_calls)))
             (calling "NoteSynthesizerSchema" note_args)
             {| name := "NoteSynthesizerSchema"; args := note_args |} []
             budget_task
             {| function_calls :=
                  [ {| name := "TaskCategorizerSchema";
                       args := handoff_task_args |};
                    {| name := "TaskCategorizerSchema";
                       args := urgent_task_args |} ];
                text := None |}
             {| name := "TaskCategorizerSchema"; args := handoff_task_args |}
             {| name := "TaskCategorizerSchema"; args := urgent_task_args |}
             []);
      reflexivity.
Defined.

(** ** Sample runs for the further properties *)

(** A call of the unknown tool [CalendarSchema], with text. *)
Lemma unknown_tool_records_nothing_witness :
  process_input_with_orchestrator placeholder_rendering task_input
    model_unknown_tool
  = Returned []
  /\ requests_sent placeholder_rendering task_input model_unknown_tool
     = [primary_request task_input]
  /\ try_block_outcome placeholder_rendering task_input model_unknown_tool
     = Returned tt
  /\ run_console placeholder_rendering task_input model_unknown_tool
     = [ ProcessingInput task_input; UnknownTool "CalendarSchema";
         ModelOutput "I would rather schedule this." ].
Proof.
  apply (unknown_tool_records_nothing placeholder_rendering task_input
           model_unknown_tool
           {| function_calls :=
                [ {| name := "CalendarSchema"; args := high_task_args |} ];
              text := Some "I would rather schedule this." |}
           {| name := "CalendarSchema"; args := high_task_args |} []);
    [reflexivity | reflexivity | discriminate | discriminate].
Defined.

(** An answer of free text. *)
Lemma free_text_answer_printed_not_recorded_witness :
  process_input_with_orchestrator placeholder_rendering task_input
    model_free_text
  = Returned []
  /\ requests_sent placeholder_rendering task_input model_free_text
     = [primary_request task_input]
  /\ try_block_outcome placeholder_rendering task_input model_free_text
     = Returned tt
  /\ run_console placeholder_rendering task_input model_free_text
     = [ ProcessingInput task_input;
         ModelOutput "Could you clarify the request?" ].
Proof.
  apply (free_text_answer_printed_not_recorded placeholder_rendering
           task_input model_free_text
           (saying "Could you clarify the request?"));
    reflexivity.
Defined.

(** The console of the free-text run holds a model-output line. *)
Lemma model_output_only_when_nothing_recorded_witness :
  In (ModelOutput "Could you clarify the request?")
     (run_console placeholder_rendering task_input model_free_text)
  /\ process_input_with_orchestrator placeholder_rendering task_input
       model_free_text
     = Returned []
  /\ requests_sent placeholder_rendering task_input model_free_text
     = [primary_request task_input]
  /\ "Could you clarify the request?" <> "".
Proof.
  assert (Hin : In (ModelOutput "Could you clarify the request?")
                  (run_console placeholder_rendering task_input
                     model_free_text))
    by (vm_compute; right; left; reflexivity).
  split; [exact Hin|].
  exact (model_output_only_when_nothing_recorded placeholder_rendering
           task_input model_free_text "Could you clarify the request?" Hin).
Defined.

(** The sample task answer. *)
Lemma task_answer_never_hands_off_witness :
  process_input_with_orchestrator placeholder_rendering task_input
    model_high_task
  = Returned [categorize_task high_task_args]
  /\ requests_sent placeholder_rendering task_input model_high_task
     = [primary_request task_input]
  /\ try_block_outcome placeholder_rendering task_input model_high_task
     = Returned tt
  /\ run_console placeholder_rendering task_input model_high_task
     = [ProcessingInput task_input; ToolCalled "TaskCategorizerSchema"].
Proof.
  apply (task_answer_never_hands_off placeholder_rendering task_input
           model_high_task
           (calling "TaskCategorizerSchema" high_task_args)
           {| name := "TaskCategorizerSchema"; args := high_task_args |} []);
    reflexivity.
Defined.

(** The sample note without the key. *)
Lemma missing_embedded_task_key_reported_witness :
  process_input_with_orchestrator placeholder_rendering note_input
    model_note_keyless
  = Returned [synthesize_note keyless_note_args]
  /\ requests_sent placeholder_rendering note_input model_note_keyless
     = [primary_request note_input]
  /\ try_block_outcome placeholder_rendering note_input model_note_keyless
     = Raised (KeyError "embedded_task")
  /\ run_console placeholder_rendering note_input model_note_keyless
     = [ ProcessingInput note_input; ToolCalled "NoteSynthesizerSchema";
         UnexpectedErrorOccurred (KeyError "embedded_task") ].
Proof.
  apply (missing_embedded_task_key_reported placeholder_rendering note_input
           model_note_keyless
           (calling "NoteSynthesizerSchema" keyless_note_args)
           {| name := "NoteSynthesizerSchema"; args := keyless_note_args |}
           []);
    reflexivity.
Defined.

(** The sample note whose embedded task is the empty string. *)
Lemma falsy_embedded_task_ends_quietly_witness :
  process_input_with_orchestrator placeholder_rendering note_input
    model_note_empty_task
  = Returned [synthesize_note empty_task_note_args]
  /\ requests_sent placeholder_rendering note_input model_note_empty_task
     = [primary_request note_input]
  /\ try_block_outcome placeholder_rendering note_input model_note_empty_task
     = Returned tt
  /\ run_console placeholder_rendering note_input model_note_empty_task
     = [ProcessingInput note_input; ToolCalled "NoteSynthesizerSchema"].
Proof.
  apply (falsy_embedded_task_ends_quietly placeholder_rendering note_input
           model_note_empty_task
           (calling "NoteSynthesizerSchema" empty_task_note_args)
           {| name := "NoteSynthesizerSchema"; args := empty_task_note_args |}
           [] (VStr ""));
    first [reflexivity | right; left; reflexivity].
Defined.

(** The sample note with an embedded task and an answered hand-off. *)
Lemma successful_handoff_trace_witness :
  process_input_with_orchestrator placeholder_rendering note_input
    model_note_with_task
  = Returned [synthesize_note note_args; categorize_task handoff_task_args]
  /\ requests_sent placeholder_rendering note_input model_note_with_task
     = [ primary_request note_input;
         handoff_request placeholder_rendering budget_task ]
  /\ try_block_outcome placeholder_rendering note_input model_note_with_task
     = Returned tt
  /\ run_console placeholder_rendering note_input model_note_with_task
     = [ ProcessingInput note_input; ToolCalled "NoteSynthesizerSchema";
         HandoffFound; HandoffSuccess ].
Proof.
  apply (successful_handoff_trace placeholder_rendering note_input
           model_note_with_task
           (calling "NoteSynthesizerSchema" note_args)
           (calling "TaskCategorizerSchema" handoff_task_args)
           {| name := "NoteSynthesizerSchema"; args := note_args |}
           {| name := "TaskCategorizerSchema"; args := handoff_task_args |}
           [] [] budget_task);
    reflexivity.
Defined.

(** The sample note answer names an offered schema. *)
Lemma offered_tool_call_is_recorded_witness :
  In NoteSynthesizerSchema (tools primary_config)
  /\ exists r,
       primary_result placeholder_rendering note_input model_note_with_task
       = Some r
       /\ output r = note_args
       /\ tool_used r +:+ "Schema" = "NoteSynthesizerSchema".
Proof.
  assert (Hoffered : In NoteSynthesizerSchema (tools primary_config))
    by (right; left; reflexivity).
  split; [exact Hoffered|].
  apply (offered_tool_call_is_recorded placeholder_rendering note_input
           model_note_with_task
           (calling "NoteSynthesizerSchema" note_args)
           {| name := "NoteSynthesizerSchema"; args := note_args |} []
           NoteSynthesizerSchema);
    [reflexivity | reflexivity | exact Hoffered | reflexivity].
Defined.
